(** * Bootstrap of the explore view and of SQL Lab

    A shallow embedding of the two entry points of
    [superset/assets/javascripts]: [explorev2/index.jsx] and the SQL Lab
    [index.jsx].  Both read a JSON blob from a DOM anchor, merge it with
    fixed and derived fields into the initial state of a redux store, and
    mount the application.

    The module top level of each file is a straight-line program with
    effects (DOM reads, a clock, in-place mutation of the decoded
    payload, exceptions); it is embedded in a state-and-exception monad
    over a small heap of JavaScript objects. *)

From Stdlib Require Import Ascii String.
From stdpp Require Import gmap strings list fin_maps pretty.

Open Scope string_scope.
Open Scope list_scope.
Set Warnings "-register-all".
#[local] Unset Elimination Schemes.

(** ** JavaScript values *)

(** A decoded JSON value.  Numbers are kept as integers: no arithmetic is
    done on them by the code at hand. *)
Inductive json :=
  | JNull
  | JBool (b : bool)
  | JNum (z : Z)
  | JStr (s : string)
  | JArr (l : list json)
  | JObj (m : gmap string json).
#[local] Set Elimination Schemes.

(** The result of evaluating an expression: [undefined], a primitive, or a
    reference to an object of the heap. *)
Inductive jsval :=
  | VUndefined
  | VNull
  | VBool (b : bool)
  | VNum (z : Z)
  | VStr (s : string)
  | VRef (l : nat).

(** What an object is besides its named properties: a plain object, an
    array with its elements, or the wrapper that [ToObject] makes of a
    primitive. *)
Inductive obj_class :=
  | ClassObject
  | ClassArray (elems : list json)
  | ClassBoolean (b : bool)
  | ClassNumber (z : Z)
  | ClassString (s : string).

(** An object of the heap.  [o_props] holds the own properties with a
    name (array elements and the characters of a String wrapper live in
    [o_class]).  [o_proto_accessor] tells whether an assignment to the
    key [__proto__] still reaches the accessor of [Object.prototype]. *)
Record object := Object {
  o_class : obj_class;
  o_props : gmap string json;
  o_proto_accessor : bool
}.

Definition plain (m : gmap string json) : object := Object ClassObject m true.

(** [o[k] = v]; on an array or a String wrapper, for a key that is
    neither an index nor [length].  On the key [__proto__] the assignment
    goes to the accessor inherited from [Object.prototype] when the object
    has no own property of that name: no own property is made, and the
    prototype is replaced when [v] is an object or [null].  After that the
    accessor is out of reach if the new prototype is [null] or has a
    [__proto__] property of its own. *)
Definition js_set (o : object) (k : string) (v : json) : object :=
  if decide (k = "__proto__") then
    match o_props o !! k with
    | Some _ => Object (o_class o) (<[k := v]> (o_props o)) (o_proto_accessor o)
    | None =>
        if o_proto_accessor o then
          Object (o_class o) (o_props o)
            match v with
            | JNull => false
            | JObj m => bool_decide (m !! "__proto__" = None)
            | _ => true
            end
        else Object (o_class o) (<[k := v]> (o_props o)) false
    end
  else Object (o_class o) (<[k := v]> (o_props o)) (o_proto_accessor o).

(** [delete o[k]] for a named key. *)
Definition js_delete (o : object) (k : string) : object :=
  Object (o_class o) (delete k (o_props o)) (o_proto_accessor o).

(** The elements of an array or the characters of a string, keyed by
    their decimal index.  A string has one index per character here and
    one per UTF-16 code unit in JavaScript: the two agree on strings of
    characters below 128 ([ascii_only] below), and what is proved
    about the index properties of a string payload is proved for those. *)
Definition index_props (l : list json) : gmap string json :=
  list_to_map (imap (λ i v, (pretty i, v)) l).

Fixpoint chars (s : string) : list json :=
  match s with
  | EmptyString => []
  | String c s' => JStr (String c EmptyString) :: chars s'
  end.

(** The own enumerable properties of an object, as [Object.assign] reads
    them from a source. *)
Definition own_enumerable (o : object) : gmap string json :=
  match o_class o with
  | ClassArray l => o_props o ∪ index_props l
  | ClassString s => o_props o ∪ index_props (chars s)
  | _ => o_props o
  end.

(** The body of [Object.assign] for one source: every entry of the source
    is assigned to the target in turn. *)
Definition assign_entries (target : object) (entries : list (string * json)) : object :=
  foldl (λ o kv, js_set o kv.1 kv.2) target entries.

(** ** Exceptions, events, the world *)

Inductive exn :=
  | TypeError (property : string)     (* property access or call on null *)
  | SyntaxError                       (* thrown by JSON.parse *)
  | ControlResolutionError.

Inductive result (A : Type) :=
  | Ok (a : A)
  | Throw (e : exn).
Arguments Ok {A} a.
Arguments Throw {A} e.

(** The calls that leave the module, in the order they are made. *)
Inductive event :=
  | Call_initJQueryAjaxCSRF
  | Call_getElementById (id : string)
  | Call_getAttribute (name : string)
  | Call_JSON_parse
  | Call_now (t : Z)
  | Call_createStore (reducer : string) (state : jsval)
  | Call_jquery_addClass
  | Call_render (container : string).

Record world := World {
  w_heap : gmap nat object;
  w_now_calls : nat;
  w_trace : list event
}.

Definition M (A : Type) : Type := world → world * result A.

Definition ret {A} (a : A) : M A := λ w, (w, Ok a).
Definition throw {A} (e : exn) : M A := λ w, (w, Throw e).
Definition bind {A B} (m : M A) (f : A → M B) : M B :=
  λ w, match m w with
       | (w', Ok a) => f a w'
       | (w', Throw e) => (w', Throw e)
       end.

#[global] Instance M_ret : MRet M := @ret.
#[global] Instance M_bind : MBind M := λ A B f m, bind m f.
#[global] Instance M_fmap : FMap M := λ A B f m, bind m (λ a, ret (f a)).

Definition emit (e : event) : M unit :=
  λ w, (World (w_heap w) (w_now_calls w) (w_trace w ++ [e]), Ok tt).

Definition alloc (o : object) : M nat :=
  λ w, let l := fresh (dom (w_heap w)) in
       (World (<[l := o]> (w_heap w)) (w_now_calls w) (w_trace w), Ok l).

Definition update (l : nat) (f : object → object) : M unit :=
  λ w, (World (alter f l (w_heap w)) (w_now_calls w) (w_trace w), Ok tt).

(** ** Collaborators that live outside the two entry points *)

(** Modelled from the spec: the static control registry, a lookup table
    from control name to descriptor template (its module is not part of
    the sources at hand).  A template carries the type, the validators and
    the static default of the control, and what the descriptor takes from
    the datasource metadata of the payload. *)
Record ControlTemplate := {
  t_type : string;
  t_validators : list string;
  t_default : json;
  t_metadata : gmap string json → json
}.

(** Modelled from the spec: a control descriptor of ControlsState (type,
    validators, current value). *)
Record Control := {
  c_type : string;
  c_validators : list string;
  c_metadata : json;
  c_value : json
}.

(** The entries of the initial-value mapping; a value that is no record
    has none. *)
Definition initial_entries (initialValues : option json) : gmap string json :=
  match initialValues with
  | Some (JObj m) => m
  | _ => ∅
  end.

(** Modelled from the spec: [getControlsState] of [stores/store], the
    spec's [computeControls(payload, initialValues)].  One descriptor per
    control of the registry, seeded with the entry of [initialValues] when
    there is one and with the static default otherwise; a key of
    [initialValues] that names no control is a ControlResolutionError. *)
Definition computeControls (registry : gmap string ControlTemplate)
    (payload : gmap string json) (initialValues : option json)
    : result (gmap string Control) :=
  if decide (dom (initial_entries initialValues) ⊆ dom registry) then
    Ok (map_imap (λ name t, Some {|
          c_type := t_type t;
          c_validators := t_validators t;
          c_metadata := t_metadata t payload;
          c_value := default (t_default t) (initial_entries initialValues !! name)
        |}) registry)
  else Throw ControlResolutionError.

(** Modelled from the spec: [getFormDataFromControls] of [stores/store],
    the spec's [computeFormData]: starting from an empty record, one entry
    is written per control, holding the control's current value. *)
Definition getFormDataFromControls (controls : gmap string Control) : gmap string json :=
  map_fold (λ name c formData, <[name := c_value c]> formData) ∅ controls.

(** Modelled from the spec: a control descriptor as the value it is in
    the state, its fields under the names of the spec's data model. *)
Definition json_of_control (c : Control) : json :=
  JObj (<["type" := JStr (c_type c)]>
       (<["validators" := JArr (JStr <$> c_validators c)]>
       (<["metadata" := c_metadata c]>
       (<["value" := c_value c]> ∅)))).

(** The controls as the value they are in the state. *)
Definition json_of_controls (controls : gmap string Control) : json :=
  JObj (json_of_control <$> controls).

(** A DOM element, as far as the entry points look at it. *)
Record element := Element {
  el_id : string;
  el_attrs : gmap string string
}.

(** The constants that each entry point binds at its top level. *)
Module Explore.
Record scope := Scope {
  exploreViewContainer : option element;
  bootstrapData : jsval;
  controls : gmap string Control;
  bootstrappedState : jsval
}.
End Explore.

Module SqlLab.
Record scope := Scope {
  appContainer : option element;
  bootstrapData : jsval;
  state : jsval
}.
End SqlLab.

(** The object literal that the explore view merges into the payload
    (index.jsx, lines 31 to 44), in the order it is written. *)
Definition explore_fields (chartUpdateStartTime : Z) (controls : gmap string Control)
    (latestQueryFormData : gmap string json) : list (string * json) :=
  [ ("chartStatus", JNull);
    ("chartUpdateEndTime", JNull);
    ("chartUpdateStartTime", JNum chartUpdateStartTime);
    ("dashboards", JArr []);
    ("controls", json_of_controls controls);
    ("latestQueryFormData", JObj latestQueryFormData);
    ("filterColumnOpts", JArr []);
    ("isDatasourceMetaLoading", JBool false);
    ("isStarred", JBool false);
    ("queryResponse", JNull);
    ("triggerQuery", JBool true);
    ("triggerRender", JBool false) ].

(** ** The primitive operations of the entry points *)

Section Bootstrap.

(** The document the page was served with. *)
Variable document : list element.
(** The JSON grammar: the value a text decodes to, if it is JSON. *)
Variable JSON_decode : string → option json.
(** The reading of the clock at its n-th call. *)
Variable clock : nat → Z.
Variable registry : gmap string ControlTemplate.
(** [getInitialState] of the SQL Lab reducers: the default fields, given
    the default database id of the payload. *)
Variable getInitialState : option json → gmap string json.

(** Modelled from the spec: [initJQueryAjaxCSRF] of [modules/utils], the
    zero-argument CSRF/session initializer; a call that returns. *)
Definition initJQueryAjaxCSRF : M unit := emit Call_initJQueryAjaxCSRF.

(** [document.getElementById(id)]: the first element with that id, or
    [null]. *)
Definition getElementById (id : string) : M (option element) :=
  emit (Call_getElementById id) ;;
  ret (find (λ el, bool_decide (el_id el = id)) document).

(** [el.getAttribute(name)]: calling it on [null] throws, an absent
    attribute reads as [null]. *)
Definition getAttribute (el : option element) (name : string) : M (option string) :=
  match el with
  | None => throw (TypeError "getAttribute")
  | Some e => emit (Call_getAttribute name) ;; ret (el_attrs e !! name)
  end.

(** The value of a decoded text: objects and arrays are made on the
    heap. *)
Definition of_json (j : json) : M jsval :=
  match j with
  | JNull => ret VNull
  | JBool b => ret (VBool b)
  | JNum z => ret (VNum z)
  | JStr s => ret (VStr s)
  | JArr l => VRef <$> alloc (Object (ClassArray l) ∅ true)
  | JObj m => VRef <$> alloc (plain m)
  end.

(** [JSON.parse(text)].  A [null] argument is first turned into the
    text [null], which decodes to [null]. *)
Definition JSON_parse (text : option string) : M jsval :=
  emit Call_JSON_parse ;;
  match text with
  | None => ret VNull
  | Some s =>
      match JSON_decode s with
      | Some j => of_json j
      | None => throw SyntaxError
      end
  end.

Definition heap_object (l : nat) : M object :=
  λ w, (w, Ok (default (plain ∅) (w_heap w !! l))).

(** [v.k] for a named key [k] that no prototype defines. *)
Definition get_property (v : jsval) (k : string) : M (option json) :=
  match v with
  | VNull | VUndefined => throw (TypeError k)
  | VRef l => o ← heap_object l; ret (o_props o !! k)
  | _ => ret None
  end.

(** [delete v.k]. *)
Definition delete_property (v : jsval) (k : string) : M unit :=
  match v with
  | VNull | VUndefined => throw (TypeError k)
  | VRef l => update l (λ o, js_delete o k)
  | _ => ret tt
  end.

(** The own enumerable properties of a value used as the source of
    [Object.assign], or passed as a record. *)
Definition own_properties (v : jsval) : M (gmap string json) :=
  match v with
  | VRef l => o ← heap_object l; ret (own_enumerable o)
  | VStr s => ret (index_props (chars s))
  | _ => ret ∅
  end.

(** [ToObject(v)]: an object is itself, a primitive gets a wrapper. *)
Definition to_object (v : jsval) : M nat :=
  match v with
  | VNull | VUndefined => throw (TypeError "Object.assign")
  | VRef l => ret l
  | VBool b => alloc (Object (ClassBoolean b) ∅ true)
  | VNum z => alloc (Object (ClassNumber z) ∅ true)
  | VStr s => alloc (Object (ClassString s) ∅ true)
  end.

(** [Object.assign(target, ...sources)], the sources given by their own
    enumerable entries: the target is mutated in place and returned. *)
Definition Object_assign (target : jsval) (sources : list (list (string * json))) : M jsval :=
  l ← to_object target ;
  update l (λ o, foldl assign_entries o sources) ;;
  ret (VRef l).

(** Modelled from the spec: [now()] of [modules/dates], the current-time
    function; a call is one reading of the clock. *)
Definition now : M Z :=
  λ w, let t := clock (w_now_calls w) in
       (World (w_heap w) (S (w_now_calls w)) (w_trace w ++ [Call_now t]), Ok t).

(** The call of [getControlsState]: it is handed the payload and reads
    its properties, and its exception is the caller's. *)
Definition getControlsState (state : jsval) (form_data : option json)
    : M (gmap string Control) :=
  payload ← own_properties state ;
  match computeControls registry payload form_data with
  | Ok controls => ret controls
  | Throw e => throw e
  end.

(** [createStore] of redux and the render of react-dom are calls out of
    the module. *)
Definition createStore (reducer : string) (state : jsval) : M unit :=
  emit (Call_createStore reducer state).

Definition render (container : string) : M unit :=
  emit (Call_render container).

(** ** The two entry points *)

(** [explorev2/index.jsx], lines 20 to 59.  The literal is evaluated
    before [Object.assign] is entered, so the clock is read before the
    target is looked at. *)
Definition explore_index : M Explore.scope :=
  initJQueryAjaxCSRF;;
  exploreViewContainer ← getElementById "js-explore-view-container";
  text ← getAttribute exploreViewContainer "data-bootstrap";
  bootstrapData ← JSON_parse text;
  form_data ← get_property bootstrapData "form_data";
  controls ← getControlsState bootstrapData form_data;
  delete_property bootstrapData "form_data";;
  chartUpdateStartTime ← now;
  bootstrappedState ←
    Object_assign bootstrapData
      [explore_fields chartUpdateStartTime controls
         (getFormDataFromControls controls)];
  createStore "exploreReducer" bootstrappedState;;
  render "js-explore-view-container";;
  ret (Explore.Scope exploreViewContainer bootstrapData controls bootstrappedState).

(** The SQL Lab [index.jsx], lines 77 to 94.  The arguments of
    [Object.assign] are evaluated from left to right: the new target, the
    defaults, the payload, whose own enumerable properties the call then
    reads. *)
Definition sqllab_index : M SqlLab.scope :=
  initJQueryAjaxCSRF;;
  appContainer ← getElementById "app";
  text ← getAttribute appContainer "data-bootstrap";
  bootstrapData ← JSON_parse text;
  target ← alloc (plain ∅);
  defaultDbId ← get_property bootstrapData "defaultDbId";
  payload ← own_properties bootstrapData;
  state ←
    Object_assign (VRef target)
      [map_to_list (getInitialState defaultDbId); map_to_list payload];
  createStore "sqlLabReducer" state;;
  emit Call_jquery_addClass;;
  render "app";;
  ret (SqlLab.Scope appContainer bootstrapData state).

End Bootstrap.

Definition result_map {A B} (f : A → B) (r : result A) : result B :=
  match r with
  | Ok a => Ok (f a)
  | Throw e => Throw e
  end.

(** The spec's [computeFormData(computeControls(payload, v))]. *)
Definition derived_form_data (registry : gmap string ControlTemplate)
    (payload : gmap string json) (initialValues : option json)
    : result (gmap string json) :=
  result_map getFormDataFromControls (computeControls registry payload initialValues).

(** The world at page load. *)
Definition page_load : world := World ∅ 0 [].

(** The two entry points side by side: the anchor each one reads, the
    first property it reads of the payload, and its run up to the initial
    state it hands to the store. *)
Inductive entry := ExploreView | SqlLabView.

Definition anchor_id (e : entry) : string :=
  match e with
  | ExploreView => "js-explore-view-container"
  | SqlLabView => "app"
  end.

Definition first_read (e : entry) : string :=
  match e with
  | ExploreView => "form_data"
  | SqlLabView => "defaultDbId"
  end.

Definition run_entry (document : list element) (JSON_decode : string → option json)
    (clock : nat → Z) (registry : gmap string ControlTemplate)
    (getInitialState : option json → gmap string json)
    (e : entry) (w : world) : world * result jsval :=
  match e with
  | ExploreView =>
      let (w', r) := explore_index document JSON_decode clock registry w in
      (w', result_map Explore.bootstrappedState r)
  | SqlLabView =>
      let (w', r) := sqllab_index document JSON_decode getInitialState w in
      (w', result_map SqlLab.state r)
  end.

(** ** A decoder for a fragment of JSON

    The entry points are parametric in the JSON grammar.  To run them on
    concrete documents, here is a decoder for the fragment without string
    escapes, fractions and exponents.  It is not [JSON.parse]: it takes
    leading zeros and raw control characters in strings, and keeps every
    integer exact.  The pages below stay clear of those texts. *)
Module Fragment.

Definition is_space (c : ascii) : bool :=
  bool_decide (c = " "%char) || bool_decide (c = "010"%char)
  || bool_decide (c = "013"%char) || bool_decide (c = "009"%char).

Definition digit (c : ascii) : option Z :=
  let n := (Z.of_nat (nat_of_ascii c) - 48)%Z in
  if bool_decide (0 ≤ n ≤ 9)%Z then Some n else None.

Fixpoint skip_space (s : string) : string :=
  match s with
  | String c s' => if is_space c then skip_space s' else s
  | EmptyString => s
  end.

(** The characters up to the closing quote, and what follows it. *)
Fixpoint string_body (s : string) : option (string * string) :=
  match s with
  | EmptyString => None
  | String c s' =>
      if bool_decide (c = "034"%char) then Some (EmptyString, s')
      else if bool_decide (c = "092"%char) then None
      else '(body, rest) ← string_body s'; Some (String c body, rest)
  end.

Fixpoint digits (acc : Z) (s : string) : Z * string :=
  match s with
  | String c s' =>
      match digit c with
      | Some d => digits (10 * acc + d)%Z s'
      | None => (acc, s)
      end
  | EmptyString => (acc, s)
  end.

Definition number (s : string) : option (Z * string) :=
  match s with
  | String c s' =>
      if bool_decide (c = "-"%char) then
        match s' with
        | String d _ => if digit d is Some _ then let '(n, r) := digits 0 s' in Some (- n, r)%Z else None
        | EmptyString => None
        end
      else if digit c is Some _ then Some (digits 0 s) else None
  | EmptyString => None
  end.

Definition literal (word : string) (j : json) (s : string) : option (json * string) :=
  if String.prefix word s
  then Some (j, String.substring (String.length word) (String.length s - String.length word) s)
  else None.

Fixpoint value (fuel : nat) (s : string) : option (json * string) :=
  match fuel with
  | 0 => None
  | S fuel =>
      match skip_space s with
      | String c s' =>
          if bool_decide (c = "{"%char) then
            match skip_space s' with
            | String "}"%char r => Some (JObj ∅, r)
            | _ => '(m, r) ← members fuel ∅ s'; Some (JObj m, r)
            end
          else if bool_decide (c = "["%char) then
            match skip_space s' with
            | String "]"%char r => Some (JArr [], r)
            | _ => '(l, r) ← elements fuel [] s'; Some (JArr l, r)
            end
          else if bool_decide (c = "034"%char) then
            '(body, r) ← string_body s'; Some (JStr body, r)
          else if bool_decide (c = "n"%char) then literal "null" JNull (String c s')
          else if bool_decide (c = "t"%char) then literal "true" (JBool true) (String c s')
          else if bool_decide (c = "f"%char) then literal "false" (JBool false) (String c s')
          else '(n, r) ← number (String c s'); Some (JNum n, r)
      | EmptyString => None
      end
  end
with elements (fuel : nat) (acc : list json) (s : string) : option (list json * string) :=
  match fuel with
  | 0 => None
  | S fuel =>
      '(j, r) ← value fuel s;
      match skip_space r with
      | String ","%char r' => elements fuel (acc ++ [j]) r'
      | String "]"%char r' => Some ((acc ++ [j]), r')
      | _ => None
      end
  end
with members (fuel : nat) (acc : gmap string json) (s : string)
    : option (gmap string json * string) :=
  match fuel with
  | 0 => None
  | S fuel =>
      match skip_space s with
      | String "034"%char s' =>
          '(key, r) ← string_body s';
          match skip_space r with
          | String ":"%char r' =>
              '(j, r'') ← value fuel r';
              match skip_space r'' with
              | String ","%char r3 => members fuel (<[key := j]> acc) r3
              | String "}"%char r3 => Some (<[key := j]> acc, r3)
              | _ => None
              end
          | _ => None
          end
      | _ => None
      end
  end.

(** A text is JSON when one value spans all of it. *)
Definition decode (s : string) : option json :=
  '(j, r) ← value (2 * String.length s + 2) s;
  match skip_space r with
  | EmptyString => Some j
  | _ => None
  end.

(** JSON texts are written below with apostrophes in the place of the
    double quotes. *)
Fixpoint quoted (s : string) : string :=
  match s with
  | EmptyString => EmptyString
  | String c s' => String (if bool_decide (c = "'"%char) then "034"%char else c) (quoted s')
  end.

End Fragment.

(** The keys of the explore literal. *)
Definition explore_keys : list string :=
  [ "chartStatus"; "chartUpdateEndTime"; "chartUpdateStartTime"; "dashboards";
    "controls"; "latestQueryFormData"; "filterColumnOpts";
    "isDatasourceMetaLoading"; "isStarred"; "queryResponse"; "triggerQuery";
    "triggerRender" ].

(** ** Documents and collaborators to run the entry points on *)
Module Demo.

(** A registry with the one control of the end-to-end scenario. *)
Definition registry : gmap string ControlTemplate :=
  {[ "metric" := {| t_type := "SelectControl";
                    t_validators := [];
                    t_default := JStr "sum";
                    t_metadata := λ payload, default JNull (payload !! "datasource_id") |} ]}.

Definition clock (n : nat) : Z := 1000 + Z.of_nat n.

Definition getInitialState (defaultDbId : option json) : gmap string json :=
  {[ "defaultDbId" := default JNull defaultDbId;
     "tabHistory" := JArr [];
     "queries" := JObj ∅ ]}.

Definition anchor (id : string) (text : string) : list element :=
  [Element id {[ "data-bootstrap" := Fragment.quoted text ]}].

Definition explore (document : list element) : world * result Explore.scope :=
  explore_index document Fragment.decode clock registry page_load.

Definition sqllab (document : list element) : world * result SqlLab.scope :=
  sqllab_index document Fragment.decode getInitialState page_load.

(** The named own properties of the object a value refers to. *)
Definition props_of (w : world) (v : jsval) : gmap string json :=
  match v with
  | VRef l => default ∅ (o_props <$> w_heap w !! l)
  | _ => ∅
  end.

(** The payload of the spec's end-to-end scenario. *)
Definition scenario : list element :=
  anchor "js-explore-view-container"
    "{'datasource_id':1,'form_data':{'metric':'count'}, 'dashboards':[]}".

(** A payload that brings fields of the explore literal of its own. *)
Definition colliding : list element :=
  anchor "js-explore-view-container"
    "{'dashboards':[1],'isStarred':true,'controls':7,'slice':null}".

Definition sqllab_page : list element :=
  anchor "app" "{'defaultDbId':3,'tabHistory':['t1'],'common':{}}".

(** Both anchors on one page. *)
Definition both : list element := colliding ++ sqllab_page.

(** The anchor of the explore view without its attribute. *)
Definition bare : list element :=
  [Element "js-explore-view-container" ∅].

(** A text that breaks off. *)
Definition truncated : list element :=
  anchor "js-explore-view-container" "{'datasource_id':".

End Demo.

(** The object that a decoded value is, or that [ToObject] wraps it
    into; [null] has none. *)
Definition payload_object (j : json) : option object :=
  match j with
  | JNull => None
  | JBool b => Some (Object (ClassBoolean b) ∅ true)
  | JNum z => Some (Object (ClassNumber z) ∅ true)
  | JStr s => Some (Object (ClassString s) ∅ true)
  | JArr l => Some (Object (ClassArray l) ∅ true)
  | JObj m => Some (plain m)
  end.

(** The value that [JSON.parse] returns for a decoded value whose object,
    if it is one, was made at location [l]. *)
Definition value_at (j : json) (l : nat) : jsval :=
  match j with
  | JNull => VNull
  | JBool b => VBool b
  | JNum z => VNum z
  | JStr s => VStr s
  | JArr _ | JObj _ => VRef l
  end.

Definition is_csrf (e : event) : bool :=
  match e with Call_initJQueryAjaxCSRF => true | _ => false end.

Definition is_now (e : event) : bool :=
  match e with Call_now _ => true | _ => false end.

Definition is_store_or_render (e : event) : bool :=
  match e with Call_createStore _ _ | Call_render _ => true | _ => false end.

Definition count (p : event → bool) (trace : list event) : nat :=
  length (filter (λ e, p e = true) trace).

(** The events of a complete run of the explore entry point. *)
Definition explore_events (t : Z) (l : nat) : list event :=
  [ Call_initJQueryAjaxCSRF;
    Call_getElementById "js-explore-view-container";
    Call_getAttribute "data-bootstrap";
    Call_JSON_parse;
    Call_now t;
    Call_createStore "exploreReducer" (VRef l);
    Call_render "js-explore-view-container" ].

(** The events of a complete run of the SQL Lab entry point. *)
Definition sqllab_events (l : nat) : list event :=
  [ Call_initJQueryAjaxCSRF;
    Call_getElementById "app";
    Call_getAttribute "data-bootstrap";
    Call_JSON_parse;
    Call_createStore "sqlLabReducer" (VRef l);
    Call_jquery_addClass;
    Call_render "app" ].

(** Whether a key is made of decimal digits only, as array indices
    are. *)
Fixpoint all_digits (s : string) : bool :=
  match s with
  | EmptyString => true
  | String c s' => if Fragment.digit c is Some _ then all_digits s' else false
  end.

(** Whether every character of a string is below 128, so that the
    string has one character per UTF-16 code unit. *)
Fixpoint ascii_only (s : string) : bool :=
  match s with
  | EmptyString => true
  | String c s' => Nat.ltb (nat_of_ascii c) 128 && ascii_only s'
  end.

(** Whether the index properties of a decoded value are told by [chars]:
    a string payload has to be of characters below 128. *)
Definition indexed_by_chars (j : json) : bool :=
  match j with
  | JStr s => ascii_only s
  | _ => true
  end.

(** The heap once [JSON.parse] has returned the decoded value [j]: an
    object or an array is made at the first free location. *)
Definition parsed_heap (j : json) (h : gmap nat object) : gmap nat object :=
  match j with
  | JArr l => <[fresh (dom h) := Object (ClassArray l) ∅ true]> h
  | JObj m => <[fresh (dom h) := plain m]> h
  | _ => h
  end.

(** The calls by which an entry point hands the state to the store and
    mounts the application (explore: lines 47 to 59, SQL Lab: lines 83 to
    94). *)
Definition mount_events (e : entry) (st : jsval) : list event :=
  match e with
  | ExploreView =>
      [ Call_createStore "exploreReducer" st;
        Call_render "js-explore-view-container" ]
  | SqlLabView =>
      [ Call_createStore "sqlLabReducer" st;
        Call_jquery_addClass;
        Call_render "app" ]
  end.

(** ** The build script

    [caravel/assets/js_build.sh]: a bash script under [set -e], one simple
    command per line. *)
Module Build.

Inductive command :=
  | cd_dirname                    (* cd "$(dirname "$0")" *)
  | npm_version                   (* npm --version *)
  | npm_install                   (* npm install *)
  | npm_run_lint                  (* npm run lint *)
  | npm_run_test                  (* npm run test *)
  | npm_run_prod                  (* npm run prod *)
  | npm_run_cover                 (* npm run cover *)
  | codeclimate_test_reporter.    (* ./node_modules/.bin/codeclimate-test-reporter *)

(** A line of the script: a simple command and the file its standard
    input is redirected from, if any. *)
Record line := Line {
  l_command : command;
  l_stdin : option string
}.

(** The script, lines 3 to 10. *)
Definition js_build : list line :=
  [ Line cd_dirname None;
    Line npm_version None;
    Line npm_install None;
    Line npm_run_lint None;
    Line npm_run_test None;
    Line npm_run_prod None;
    Line npm_run_cover None;
    Line codeclimate_test_reporter (Some "./coverage/lcov.info") ].

Definition commands (script : list line) : list command :=
  l_command <$> script.

(** The log of commands that all ran and exited with status 0. *)
Definition succeeded (cs : list command) : list (command * nat) :=
  (λ c, (c, 0)) <$> cs.

Section Shell.

(** The machine the script runs on: files, working directory, network. *)
Variable machine : Type.
(** A command run to its end: what it leaves behind and its exit status. *)
Variable exec : command → machine → machine * nat.
(** Whether a file can be opened for reading. *)
Variable readable : string → machine → bool.

(** One line.  The redirection is done first; when it fails the command
    is not run and the status of the line is 1.  The result holds the
    commands that ran with their statuses, and the status of the line. *)
Definition run_line (ln : line) (m : machine)
    : machine * list (command * nat) * nat :=
  match l_stdin ln with
  | Some file =>
      if readable file m then
        let (m', n) := exec (l_command ln) m in (m', [(l_command ln, n)], n)
      else (m, [], 1)
  | None =>
      let (m', n) := exec (l_command ln) m in (m', [(l_command ln, n)], n)
  end.

(** A script under [set -e]: the shell exits at the first line whose
    status is not 0, with that status; a script that runs to its end
    exits with the status of its last line, which is then 0. *)
Fixpoint errexit (script : list line) (m : machine)
    : machine * list (command * nat) * nat :=
  match script with
  | [] => (m, [], 0)
  | ln :: rest =>
      let '(m', ran, n) := run_line ln m in
      match n with
      | 0 => let '(m'', log, status) := errexit rest m' in (m'', ran ++ log, status)
      | S _ => (m', ran, n)
      end
  end.

End Shell.

(** A machine for trial runs: it remembers the commands it ran; the
    command [failing] exits with status 2, and the coverage file is there
    once the coverage run is done. *)
Definition trial_exec (failing : option command) (c : command) (m : list command)
    : list command * nat :=
  (m ++ [c],
   match failing with
   | Some c' =>
       match c, c' with
       | cd_dirname, cd_dirname | npm_version, npm_version
       | npm_install, npm_install | npm_run_lint, npm_run_lint
       | npm_run_test, npm_run_test | npm_run_prod, npm_run_prod
       | npm_run_cover, npm_run_cover
       | codeclimate_test_reporter, codeclimate_test_reporter => 2
       | _, _ => 0
       end
   | None => 0
   end).

Definition trial_readable (file : string) (m : list command) : bool :=
  existsb (λ c, match c with npm_run_cover => true | _ => false end) m.

End Build.

(** ** Properties of the object operations *)

#[global] Arguments js_set : simpl never.
#[global] Arguments assign_entries : simpl never.
#[global] Arguments explore_fields : simpl never.
#[global] Arguments getFormDataFromControls : simpl never.
#[global] Arguments json_of_controls : simpl never.
#[global] Arguments computeControls : simpl never.
#[global] Arguments index_props : simpl never.

Lemma js_set_lookup_ne o k v k' :
  k' ≠ k → o_props (js_set o k v) !! k' = o_props o !! k'.
Proof.
  intros Hne. unfold js_set.
  repeat case_match; simpl; try done; by rewrite lookup_insert_ne.
Qed.

Lemma js_set_lookup_eq o k v :
  k ≠ "__proto__" → o_props (js_set o k v) !! k = Some v.
Proof.
  intros Hne. unfold js_set. rewrite decide_False by done. simpl.
  apply lookup_insert_eq.
Qed.

Lemma assign_entries_snoc o es kv :
  assign_entries o (es ++ [kv]) = js_set (assign_entries o es) kv.1 kv.2.
Proof. unfold assign_entries. by rewrite foldl_snoc. Qed.

(** Away from [__proto__], assigning the entries of a source is the
    left-biased union with them, a later entry winning over an earlier
    one. *)
Lemma assign_entries_lookup o es k :
  k ≠ "__proto__" →
  o_props (assign_entries o es) !! k
  = (list_to_map (reverse es) ∪ o_props o) !! k.
Proof.
  intros Hk. induction es as [|kv es IH] using rev_ind.
  - rewrite reverse_nil. simpl. by rewrite (left_id_L ∅ (∪)).
  - rewrite assign_entries_snoc, reverse_snoc. simpl.
    destruct (decide (k = kv.1)) as [->|Hne].
    + rewrite js_set_lookup_eq by done.
      rewrite lookup_union_l'; by rewrite lookup_insert_eq.
    + rewrite js_set_lookup_ne by done. rewrite IH.
      rewrite !lookup_union, lookup_insert_ne; done.
Qed.

(** A key that the source does not have stays in the target as it
    was. *)
Lemma assign_entries_lookup_absent o es k :
  k ∉ es.*1 → o_props (assign_entries o es) !! k = o_props o !! k.
Proof.
  induction es as [|kv es IH] using rev_ind; [done|].
  rewrite fmap_app, not_elem_of_app. intros [Hes Hkv].
  rewrite assign_entries_snoc, js_set_lookup_ne; [by apply IH|].
  simpl in Hkv. set_solver.
Qed.

Lemma map_to_list_reverse_to_map {A} (m : gmap string A) :
  list_to_map (reverse (map_to_list m)) = m.
Proof.
  rewrite <-(list_to_map_to_list m) at 2.
  apply list_to_map_proper.
  - rewrite fmap_reverse, reverse_Permutation. apply NoDup_fst_map_to_list.
  - apply reverse_Permutation.
Qed.

Lemma explore_fields_keys t cs fd : (explore_fields t cs fd).*1 = explore_keys.
Proof. reflexivity. Qed.

Lemma explore_fields_NoDup t cs fd : NoDup (explore_fields t cs fd).*1.
Proof.
  rewrite explore_fields_keys.
  apply (bool_decide_unpack (NoDup explore_keys)). reflexivity.
Qed.

(** What the merge of the explore literal leaves in the target: the
    fields of the literal, and the other properties as they were. *)
Lemma assign_explore_fields_lookup o t cs fd k :
  o_props (assign_entries o (explore_fields t cs fd)) !! k
  = (list_to_map (explore_fields t cs fd) ∪ o_props o) !! k.
Proof.
  destruct (decide (k ∈ explore_keys)) as [Hin|Hnotin].
  - rewrite assign_entries_lookup.
    + rewrite !lookup_union. f_equal.
    + intros ->. revert Hin.
      apply (bool_decide_unpack ("__proto__" ∉ explore_keys)). reflexivity.
  - rewrite assign_entries_lookup_absent by by rewrite explore_fields_keys.
    rewrite lookup_union_r; [done|].
    apply not_elem_of_list_to_map_1. by rewrite explore_fields_keys.
Qed.

(** *** Index keys *)

Lemma pretty_N_char_digit x : is_Some (Fragment.digit (pretty_N_char x)).
Proof. unfold pretty_N_char. repeat case_match; by eexists. Qed.

Lemma pretty_N_go_digits x s :
  all_digits s = true → all_digits (pretty_N_go x s) = true.
Proof.
  revert s. induction (N.lt_wf_0 x) as [x _ IH]; intros s Hs.
  destruct (decide (x = 0)%N) as [->|Hx].
  - by rewrite pretty_N_go_0.
  - rewrite pretty_N_go_step by lia. apply IH.
    + apply N.div_lt; lia.
    + simpl. by destruct (pretty_N_char_digit (x `mod` 10)) as [d ->].
Qed.

Lemma pretty_nat_digits (i : nat) : all_digits (pretty i) = true.
Proof.
  unfold pretty, pretty_nat, pretty, pretty_N.
  case_decide; [done|]. by apply pretty_N_go_digits.
Qed.

(** An array or a String wrapper has index properties under digit keys
    only. *)
Lemma index_props_lookup_None l k :
  all_digits k = false → index_props l !! k = None.
Proof.
  intros Hk. unfold index_props. apply not_elem_of_list_to_map_1.
  intros Hin. apply list_elem_of_fmap in Hin as ([k' v] & -> & Hin).
  apply elem_of_lookup_imap in Hin as (i & x & Heq & _).
  simpl in Hk. injection Heq as -> _.
  by rewrite pretty_nat_digits in Hk.
Qed.

Lemma own_enumerable_lookup o k :
  all_digits k = false → own_enumerable o !! k = o_props o !! k.
Proof.
  intros Hk. unfold own_enumerable.
  destruct (o_class o); try done.
  all: by rewrite lookup_union, index_props_lookup_None, (right_id_L None _).
Qed.

(** *** The derived structures *)

Lemma getFormDataFromControls_lookup (controls : gmap string Control) k :
  getFormDataFromControls controls !! k = c_value <$> controls !! k.
Proof.
  unfold getFormDataFromControls.
  apply (map_fold_weak_ind
           (λ (formData : gmap string json) (m : gmap string Control),
              formData !! k = c_value <$> m !! k)).
  - by rewrite !lookup_empty.
  - intros name c m formData Hname IH.
    destruct (decide (name = k)) as [->|Hne].
    + by rewrite !lookup_insert_eq.
    + by rewrite !lookup_insert_ne.
Qed.

(** ** Runs of the entry points *)

Ltac unfold_ops :=
  unfold explore_index, sqllab_index, initJQueryAjaxCSRF, getElementById,
    getAttribute, JSON_parse, of_json, get_property, delete_property,
    own_properties, to_object, Object_assign, now, getControlsState,
    createStore, render, heap_object, update, alloc, emit, throw,
    mbind, M_bind, fmap, M_fmap, bind, mret, M_ret, ret in *.

Ltac run :=
  repeat (progress (unfold_ops; cbn in *;
                    rewrite ?lookup_insert_eq, ?alter_insert_eq in *)).

Section Runs.

Context (document : list element) (JSON_decode : string → option json)
  (clock : nat → Z) (registry : gmap string ControlTemplate)
  (getInitialState : option json → gmap string json).

Local Abbreviation explore := (explore_index document JSON_decode clock registry).
Local Abbreviation sqllab := (sqllab_index document JSON_decode getInitialState).
Local Abbreviation anchor id :=
  (find (λ el, bool_decide (el_id el = id)) document).

(** A run of the explore entry point that completes decoded a value
    other than [null], resolved the controls, and merged the literal
    into the payload's object, at the first free location. *)
Lemma explore_index_Ok w w' sc :
  explore w = (w', Ok sc) →
  ∃ el s j o,
    anchor "js-explore-view-container" = Some el
    ∧ el_attrs el !! "data-bootstrap" = Some s
    ∧ JSON_decode s = Some j
    ∧ payload_object j = Some o
    ∧ computeControls registry (own_enumerable o) (o_props o !! "form_data")
      = Ok (Explore.controls sc)
    ∧ Explore.exploreViewContainer sc = Some el
    ∧ Explore.bootstrapData sc = value_at j (fresh (dom (w_heap w)))
    ∧ Explore.bootstrappedState sc = VRef (fresh (dom (w_heap w)))
    ∧ w' = World
             (<[fresh (dom (w_heap w)) :=
                  assign_entries (js_delete o "form_data")
                    (explore_fields (clock (w_now_calls w)) (Explore.controls sc)
                       (getFormDataFromControls (Explore.controls sc)))]>
                (w_heap w))
             (S (w_now_calls w))
             (w_trace w
              ++ explore_events (clock (w_now_calls w)) (fresh (dom (w_heap w)))).
Proof.
  intros H. run.
  destruct (find _ document) as [el|] eqn:Hf; run; [|done].
  destruct (el_attrs el !! "data-bootstrap") as [s|] eqn:Ha; run; [|done].
  destruct (JSON_decode s) as [j|] eqn:Hd; run; [|done].
  destruct j; run; try done.
  all: destruct (computeControls _ _ _) as [cs|] eqn:Hc; run; [|done].
  all: simplify_eq; simpl.
  all: eexists el, s, _, _; split_and!; try done.
  all: unfold own_enumerable, js_delete, explore_events; simpl.
  all: rewrite ?delete_empty, ?(left_id_L ∅ (∪)), ?lookup_empty, <-?app_assoc.
  all: done.
Qed.

(** The run on a record payload whose controls resolve. *)
Lemma explore_index_record w el s m cs :
  anchor "js-explore-view-container" = Some el →
  el_attrs el !! "data-bootstrap" = Some s →
  JSON_decode s = Some (JObj m) →
  computeControls registry m (m !! "form_data") = Ok cs →
  explore w
  = (World
       (<[fresh (dom (w_heap w)) :=
            assign_entries (js_delete (plain m) "form_data")
              (explore_fields (clock (w_now_calls w)) cs
                 (getFormDataFromControls cs))]>
          (w_heap w))
       (S (w_now_calls w))
       (w_trace w
        ++ explore_events (clock (w_now_calls w)) (fresh (dom (w_heap w)))),
     Ok (Explore.Scope (Some el) (VRef (fresh (dom (w_heap w)))) cs
           (VRef (fresh (dom (w_heap w)))))).
Proof.
  intros Hf Ha Hd Hc. run. rewrite Hf. run. rewrite Ha. run.
  rewrite Hd. run. unfold own_enumerable. simpl. rewrite Hc. run.
  unfold explore_events. by rewrite <-!app_assoc.
Qed.

(** The run of SQL Lab on a record payload: the payload is made at the
    first free location, the merge target at the next. *)
Lemma sqllab_index_record w el s m :
  anchor "app" = Some el →
  el_attrs el !! "data-bootstrap" = Some s →
  JSON_decode s = Some (JObj m) →
  let l0 := fresh (dom (w_heap w)) in
  let l := fresh (dom (<[l0 := plain m]> (w_heap w))) in
  sqllab w
  = (World
       (<[l := assign_entries
                 (assign_entries (plain ∅)
                    (map_to_list (getInitialState (m !! "defaultDbId"))))
                 (map_to_list m)]>
          (<[l0 := plain m]> (w_heap w)))
       (w_now_calls w)
       (w_trace w ++ sqllab_events l),
     Ok (SqlLab.Scope (Some el) (VRef l0) (VRef l))).
Proof.
  intros Hf Ha Hd l0 l. run. rewrite Hf. run. rewrite Ha. run.
  rewrite Hd. run.
  assert (l ≠ l0) as Hne.
  { intros Heq. apply (is_fresh (dom (<[l0 := plain m]> (w_heap w)))).
    fold l. rewrite Heq. set_solver. }
  fold l0. fold l. rewrite !(lookup_insert_ne _ l l0) by done.
  rewrite !lookup_insert_eq. run.
  unfold own_enumerable, sqllab_events. simpl. by rewrite <-!app_assoc.
Qed.

(** Every field of the explore literal is in the merged object, whatever
    the target held. *)
Lemma assign_explore_fields_field o t cs fd k v :
  (k, v) ∈ explore_fields t cs fd →
  o_props (assign_entries o (explore_fields t cs fd)) !! k = Some v.
Proof.
  intros Hin. rewrite assign_explore_fields_lookup.
  apply lookup_union_Some_l.
  apply elem_of_list_to_map_1; [apply explore_fields_NoDup|done].
Qed.

(** The other properties of the target stay as they were. *)
Lemma assign_explore_fields_other o t cs fd k :
  k ∉ explore_keys →
  o_props (assign_entries o (explore_fields t cs fd)) !! k = o_props o !! k.
Proof.
  intros Hk. apply assign_entries_lookup_absent.
  by rewrite explore_fields_keys.
Qed.

(** Away from [__proto__], the SQL Lab merge is the payload over the
    defaults. *)
Lemma sqllab_merge_lookup (defaults m : gmap string json) k :
  k ≠ "__proto__" →
  o_props (assign_entries (assign_entries (plain ∅) (map_to_list defaults))
             (map_to_list m)) !! k
  = (m ∪ defaults) !! k.
Proof.
  intros Hk. rewrite assign_entries_lookup by done.
  rewrite lookup_union, assign_entries_lookup by done.
  rewrite !map_to_list_reverse_to_map. simpl.
  by rewrite (right_id_L ∅ (∪)), <-lookup_union.
Qed.

(** ** The claims *)

Local Abbreviation run_view :=
  (run_entry document JSON_decode clock registry getInitialState).

(** C9.  In every run of either entry point, failing or not, the first
    call is the CSRF initializer, the lookup of the anchor comes right
    after it, and the initializer is not called again. *)
Theorem csrf_initializer_first e w :
  ∃ rest,
    w_trace (run_view e w).1
    = w_trace w
      ++ Call_initJQueryAjaxCSRF :: Call_getElementById (anchor_id e) :: rest
    ∧ count is_csrf rest = 0
    ∧ count is_csrf (w_trace (run_view e w).1)
      = count is_csrf (w_trace w) + 1.
Proof.
  destruct e; unfold run_entry; run.
  all: destruct (find _ document) as [el|]; run.
  all: try destruct (el_attrs el !! "data-bootstrap") as [s|]; run.
  all: try destruct (JSON_decode s) as [j|]; run.
  all: try destruct j; run.
  all: try destruct (computeControls _ _ _) as [cs|]; run.
  all: rewrite <-?app_assoc; simpl.
  all: eexists; split_and!; [reflexivity|reflexivity|].
  all: unfold count; rewrite !filter_app, !length_app; simpl; lia.
Qed.

(** C1 (amended).  Precedence of the state merge.  In the explore view
    the fields of the merge literal, fixed defaults and computed fields
    alike, win over the payload on every colliding key, and the payload
    keeps its other keys except [form_data].  In SQL Lab the payload
    wins over the defaults of [getInitialState] on every colliding key
    other than [__proto__], and the defaults fill the keys the payload
    lacks. *)
Theorem merge_precedence w :
  (∀ el s m cs,
     anchor "js-explore-view-container" = Some el →
     el_attrs el !! "data-bootstrap" = Some s →
     JSON_decode s = Some (JObj m) →
     computeControls registry m (m !! "form_data") = Ok cs →
     ∃ w' sc l o,
       explore w = (w', Ok sc)
       ∧ Explore.bootstrappedState sc = VRef l
       ∧ w_heap w' !! l = Some o
       ∧ (∀ k v,
            (k, v) ∈ explore_fields (clock (w_now_calls w)) cs
                       (getFormDataFromControls cs) →
            o_props o !! k = Some v)
       ∧ (∀ k, k ∉ explore_keys → k ≠ "form_data" →
            o_props o !! k = m !! k))
  ∧ (∀ el s m,
       anchor "app" = Some el →
       el_attrs el !! "data-bootstrap" = Some s →
       JSON_decode s = Some (JObj m) →
       ∃ w' sc l o,
         sqllab w = (w', Ok sc)
         ∧ SqlLab.state sc = VRef l
         ∧ w_heap w' !! l = Some o
         ∧ (∀ k v, k ≠ "__proto__" → m !! k = Some v →
              o_props o !! k = Some v)
         ∧ (∀ k, k ≠ "__proto__" → m !! k = None →
              o_props o !! k = getInitialState (m !! "defaultDbId") !! k)).
Proof.
  split.
  - intros el s m cs Hf Ha Hd Hc.
    eexists _, _, _, _. split; [by apply (explore_index_record w el s m cs)|].
    split; [done|]. simpl. split; [apply lookup_insert_eq|]. split.
    + intros k v Hin. by apply assign_explore_fields_field.
    + intros k Hk Hne. rewrite assign_explore_fields_other by done.
      simpl. by rewrite lookup_delete_ne.
  - intros el s m Hf Ha Hd.
    eexists _, _, _, _. split; [by apply (sqllab_index_record w el s m)|].
    split; [done|]. simpl. split; [apply lookup_insert_eq|]. split.
    + intros k v Hk Hm. rewrite sqllab_merge_lookup by done.
      by apply lookup_union_Some_l.
    + intros k Hk Hm. rewrite sqllab_merge_lookup by done.
      by rewrite lookup_union_r.
Qed.

(** C2.  Whatever record the explore view decodes, also one that holds
    reserved keys, the run completes without an error and the merged
    state holds at every key of the literal ([controls],
    [latestQueryFormData], the status fields, the flags, the
    timestamps) the computed or default value, not the payload's. *)
Theorem reserved_keys_shadowed w el s m cs :
  anchor "js-explore-view-container" = Some el →
  el_attrs el !! "data-bootstrap" = Some s →
  JSON_decode s = Some (JObj m) →
  computeControls registry m (m !! "form_data") = Ok cs →
  ∃ w' sc l o,
    explore w = (w', Ok sc)
    ∧ Explore.bootstrappedState sc = VRef l
    ∧ w_heap w' !! l = Some o
    ∧ o_props o !! "controls" = Some (json_of_controls cs)
    ∧ o_props o !! "latestQueryFormData"
      = Some (JObj (getFormDataFromControls cs))
    ∧ o_props o !! "chartUpdateStartTime" = Some (JNum (clock (w_now_calls w)))
    ∧ o_props o !! "chartUpdateEndTime" = Some JNull
    ∧ o_props o !! "chartStatus" = Some JNull
    ∧ o_props o !! "dashboards" = Some (JArr [])
    ∧ o_props o !! "filterColumnOpts" = Some (JArr [])
    ∧ o_props o !! "isDatasourceMetaLoading" = Some (JBool false)
    ∧ o_props o !! "isStarred" = Some (JBool false)
    ∧ o_props o !! "queryResponse" = Some JNull
    ∧ o_props o !! "triggerQuery" = Some (JBool true)
    ∧ o_props o !! "triggerRender" = Some (JBool false)
    ∧ (∀ k v v',
         (k, v) ∈ explore_fields (clock (w_now_calls w)) cs
                    (getFormDataFromControls cs) →
         m !! k = Some v' → v' ≠ v → o_props o !! k ≠ Some v').
Proof.
  intros Hf Ha Hd Hc.
  eexists _, _, _, _. split; [by apply (explore_index_record w el s m cs)|].
  split; [done|]. simpl. split; [apply lookup_insert_eq|].
  split_and!.
  1-12: apply assign_explore_fields_field; unfold explore_fields;
        set_solver.
  intros k v v' Hin _ Hne.
  rewrite (assign_explore_fields_field _ _ _ _ _ _ Hin). congruence.
Qed.

(** C3.  After every completed run of the explore view the merged state
    has no property [form_data].  The sub-field was used first: the
    controls of the run are the ones computed from the object that the
    text under the anchor decodes to, with the [form_data] that this
    object holds.  It was then deleted from the payload: the state keeps
    the other properties of that object, and carries form data under
    [latestQueryFormData] only. *)
Theorem form_data_removed w w' sc :
  explore w = (w', Ok sc) →
  ∃ el s j payload l o,
    anchor "js-explore-view-container" = Some el
    ∧ el_attrs el !! "data-bootstrap" = Some s
    ∧ JSON_decode s = Some j
    ∧ payload_object j = Some payload
    ∧ computeControls registry (own_enumerable payload)
        (o_props payload !! "form_data")
      = Ok (Explore.controls sc)
    ∧ Explore.bootstrappedState sc = VRef l
    ∧ w_heap w' !! l = Some o
    ∧ o_props o !! "form_data" = None
    ∧ own_enumerable o !! "form_data" = None
    ∧ o_props o !! "latestQueryFormData"
      = Some (JObj (getFormDataFromControls (Explore.controls sc)))
    ∧ (∀ k, k ∉ explore_keys → k ≠ "form_data" →
         o_props o !! k = o_props payload !! k).
Proof.
  clear getInitialState. intros Hrun.
  apply explore_index_Ok in Hrun
    as (el & s & j & o & Hf & Ha & Hd & Ho & Hc & _ & _ & Hst & ->).
  exists el, s, j, o. eexists _, _.
  do 5 (split; [done|]).
  split; [done|]. simpl. split; [apply lookup_insert_eq|].
  assert (o_props (assign_entries (js_delete o "form_data")
            (explore_fields (clock (w_now_calls w)) (Explore.controls sc)
               (getFormDataFromControls (Explore.controls sc))))
          !! "form_data" = None) as Hnone.
  { rewrite assign_explore_fields_other.
    - simpl. apply lookup_delete_eq.
    - apply (bool_decide_unpack ("form_data" ∉ explore_keys)). reflexivity. }
  split_and!.
  - done.
  - by rewrite own_enumerable_lookup.
  - apply assign_explore_fields_field. unfold explore_fields. set_solver.
  - intros k Hk Hne. rewrite assign_explore_fields_other by done.
    simpl. by rewrite lookup_delete_ne.
Qed.

(** C5.  A completed run of the explore view reads the clock exactly
    once, and that reading is the [chartUpdateStartTime] of the merged
    state. *)
Theorem now_called_once w w' sc :
  explore w = (w', Ok sc) →
  count is_now (w_trace w') = count is_now (w_trace w) + 1
  ∧ w_now_calls w' = S (w_now_calls w)
  ∧ ∃ l o,
      Explore.bootstrappedState sc = VRef l
      ∧ w_heap w' !! l = Some o
      ∧ o_props o !! "chartUpdateStartTime"
        = Some (JNum (clock (w_now_calls w))).
Proof.
  clear getInitialState. intros Hrun.
  apply explore_index_Ok in Hrun
    as (el & s & j & o & _ & _ & _ & _ & _ & _ & _ & Hst & ->).
  simpl. split_and!.
  - unfold count. by rewrite filter_app, length_app.
  - done.
  - eexists _, _. split; [done|]. split; [apply lookup_insert_eq|].
    apply assign_explore_fields_field. unfold explore_fields. set_solver.
Qed.

(** C4.  With no element under the anchor's id, either entry point
    throws on the call of [getAttribute] on [null] (the spec's
    MissingAnchorError), right after the lookup: no store is created and
    nothing is rendered. *)
Theorem missing_anchor_aborts e w :
  anchor (anchor_id e) = None →
  run_view e w
  = (World (w_heap w) (w_now_calls w)
       (w_trace w
        ++ [Call_initJQueryAjaxCSRF; Call_getElementById (anchor_id e)]),
     Throw (TypeError "getAttribute"))
  ∧ count is_store_or_render (w_trace (run_view e w).1)
    = count is_store_or_render (w_trace w).
Proof.
  intros Hf.
  assert (run_view e w
          = (World (w_heap w) (w_now_calls w)
               (w_trace w
                ++ [Call_initJQueryAjaxCSRF; Call_getElementById (anchor_id e)]),
             Throw (TypeError "getAttribute"))) as Hrun.
  { destruct e; unfold run_entry; simpl in Hf; run; rewrite Hf; run;
      by rewrite <-!app_assoc. }
  split; [done|]. rewrite Hrun. simpl.
  unfold count. rewrite filter_app, length_app. simpl. lia.
Qed.

(** C6 (amended).  With the anchor in place, a text that is not JSON
    makes [JSON.parse] throw a SyntaxError (the spec's
    MalformedPayloadError).  An absent attribute does not: it reads as
    [null], [JSON.parse] returns [null], and the entry point throws a
    TypeError at its first read of a property of the payload.  Either
    way the exception ends the run before any store is created or
    anything is rendered. *)
Theorem malformed_payload_aborts e w el :
  anchor (anchor_id e) = Some el →
  (∀ s, el_attrs el !! "data-bootstrap" = Some s → JSON_decode s = None →
     ∃ w',
       run_view e w = (w', Throw SyntaxError)
       ∧ w_trace w'
         = w_trace w
           ++ [Call_initJQueryAjaxCSRF; Call_getElementById (anchor_id e);
               Call_getAttribute "data-bootstrap"; Call_JSON_parse])
  ∧ (el_attrs el !! "data-bootstrap" = None →
     (text ← getAttribute (Some el) "data-bootstrap";
      JSON_parse JSON_decode text) w
     = (World (w_heap w) (w_now_calls w)
          (w_trace w ++ [Call_getAttribute "data-bootstrap"; Call_JSON_parse]),
        Ok VNull)
     ∧ ∃ w',
         run_view e w = (w', Throw (TypeError (first_read e)))
         ∧ w_trace w'
           = w_trace w
             ++ [Call_initJQueryAjaxCSRF; Call_getElementById (anchor_id e);
                 Call_getAttribute "data-bootstrap"; Call_JSON_parse]).
Proof.
  intros Hf. split.
  - intros s Ha Hd.
    destruct e; unfold run_entry; simpl in Hf; run; rewrite Hf; run;
      rewrite Ha; run; rewrite Hd; run.
    all: eexists; split; [reflexivity|]; simpl; by rewrite <-!app_assoc.
  - intros Ha. split.
    + run. rewrite Ha. run. by rewrite <-!app_assoc.
    + destruct e; unfold run_entry; simpl in Hf; run; rewrite Hf; run;
        rewrite Ha; run.
      all: eexists; split; [reflexivity|]; simpl; by rewrite <-!app_assoc.
Qed.

(** C10.  In the explore view the merge target is the decoded payload
    itself: the state is the object that [JSON.parse] made, which now
    holds, besides the properties it was decoded with ([form_data]
    apart), the twelve fields of the merge: [chartStatus],
    [chartUpdateEndTime], [chartUpdateStartTime], [dashboards],
    [controls], [latestQueryFormData], [filterColumnOpts],
    [isDatasourceMetaLoading], [isStarred], [queryResponse],
    [triggerQuery] and [triggerRender].  In SQL Lab the target is a new
    object, and the object of the payload is still the decoded record. *)
Theorem merge_target_aliasing w :
  (∀ el s m cs,
     anchor "js-explore-view-container" = Some el →
     el_attrs el !! "data-bootstrap" = Some s →
     JSON_decode s = Some (JObj m) →
     computeControls registry m (m !! "form_data") = Ok cs →
     ∃ w' sc l o,
       explore w = (w', Ok sc)
       ∧ Explore.bootstrapData sc = VRef l
       ∧ Explore.bootstrappedState sc = VRef l
       ∧ (∃ w1, JSON_parse JSON_decode (Some s) w = (w1, Ok (VRef l))
                ∧ w_heap w1 !! l = Some (plain m))
       ∧ w_heap w' !! l = Some o
       ∧ o_props o !! "chartStatus" = Some JNull
       ∧ o_props o !! "chartUpdateEndTime" = Some JNull
       ∧ o_props o !! "chartUpdateStartTime"
         = Some (JNum (clock (w_now_calls w)))
       ∧ o_props o !! "dashboards" = Some (JArr [])
       ∧ o_props o !! "controls" = Some (json_of_controls cs)
       ∧ o_props o !! "latestQueryFormData"
         = Some (JObj (getFormDataFromControls cs))
       ∧ o_props o !! "filterColumnOpts" = Some (JArr [])
       ∧ o_props o !! "isDatasourceMetaLoading" = Some (JBool false)
       ∧ o_props o !! "isStarred" = Some (JBool false)
       ∧ o_props o !! "queryResponse" = Some JNull
       ∧ o_props o !! "triggerQuery" = Some (JBool true)
       ∧ o_props o !! "triggerRender" = Some (JBool false)
       ∧ (∀ k v,
            (k, v) ∈ explore_fields (clock (w_now_calls w)) cs
                       (getFormDataFromControls cs) →
            o_props o !! k = Some v)
       ∧ (∀ k, k ∉ explore_keys → k ≠ "form_data" →
            o_props o !! k = m !! k))
  ∧ (∀ el s m,
       anchor "app" = Some el →
       el_attrs el !! "data-bootstrap" = Some s →
       JSON_decode s = Some (JObj m) →
       ∃ w' sc l0 l,
         sqllab w = (w', Ok sc)
         ∧ SqlLab.bootstrapData sc = VRef l0
         ∧ SqlLab.state sc = VRef l
         ∧ l ≠ l0
         ∧ w_heap w !! l = None
         ∧ w_heap w' !! l0 = Some (plain m)).
Proof.
  split.
  - intros el s m cs Hf Ha Hd Hc.
    eexists _, _, _, _. split; [by apply (explore_index_record w el s m cs)|].
    simpl. do 2 (split; [done|]).
    split.
    { eexists. run. rewrite Hd. run. split; [reflexivity|].
      simpl. apply lookup_insert_eq. }
    split; [apply lookup_insert_eq|].
    split_and!.
    1-12: apply assign_explore_fields_field; unfold explore_fields;
          set_solver.
    + intros k v Hin. by apply assign_explore_fields_field.
    + intros k Hk Hne. rewrite assign_explore_fields_other by done.
      simpl. by rewrite lookup_delete_ne.
  - intros el s m Hf Ha Hd.
    pose proof (is_fresh (dom (<[fresh (dom (w_heap w)) := plain m]> (w_heap w))))
      as Hfresh.
    eexists _, _, _, _. split; [by apply (sqllab_index_record w el s m)|].
    simpl. split_and!; try done.
    + intros Heq. apply Hfresh. rewrite Heq. set_solver.
    + apply not_elem_of_dom. set_solver.
    + rewrite lookup_insert_ne; [apply lookup_insert_eq|].
      intros Heq. apply Hfresh. rewrite Heq. set_solver.
Qed.

End Runs.

(** C7.  The form data derived from controls has one entry per control,
    under the control's name, holding the control's current value: its
    keys are exactly the keys of the controls. *)
Theorem form_data_keys (controls : gmap string Control) :
  dom (getFormDataFromControls controls) = dom controls
  ∧ ∀ name,
      getFormDataFromControls controls !! name = c_value <$> controls !! name.
Proof.
  split; [|apply getFormDataFromControls_lookup].
  apply set_eq. intros name.
  by rewrite !elem_of_dom, getFormDataFromControls_lookup, fmap_is_Some.
Qed.

(** C8.  The form data derived through the controls is the same for any
    two payloads, given the same initial values and registry: every value
    is the entry of the initial values under the control's name, or the
    static default of the registry. *)
Theorem derivation_ignores_payload registry (payload1 payload2 : gmap string json)
    initialValues :
  derived_form_data registry payload1 initialValues
  = derived_form_data registry payload2 initialValues
  ∧ ∀ formData,
      derived_form_data registry payload1 initialValues = Ok formData →
      ∀ name,
        formData !! name
        = (λ t, default (t_default t) (initial_entries initialValues !! name))
          <$> registry !! name.
Proof.
  unfold derived_form_data, computeControls.
  case_decide; simpl; [|done]. split.
  - f_equal. apply map_eq. intros name.
    rewrite !getFormDataFromControls_lookup, !map_lookup_imap.
    by destruct (registry !! name).
  - intros formData [= <-] name.
    rewrite getFormDataFromControls_lookup, map_lookup_imap.
    by destruct (registry !! name).
Qed.


(** Closing a goal [t = v] by running [t]; what [v] leaves open is read
    off the result. *)
Ltac by_run :=
  lazymatch goal with
  | |- ?lhs = ?rhs =>
      let v := eval vm_compute in lhs in
      unify rhs v; vm_compute; reflexivity
  end.

(** ** The entry points on concrete pages *)

(** The end-to-end scenario of the spec: the control takes the value of
    the form data, the form data follows, and the state has no
    [form_data]. *)
Example scenario_run :
  ∃ w sc,
    Demo.explore Demo.scenario = (w, Ok sc)
    ∧ c_value <$> Explore.controls sc !! "metric" = Some (JStr "count")
    ∧ getFormDataFromControls (Explore.controls sc) !! "metric"
      = Some (JStr "count")
    ∧ Demo.props_of w (Explore.bootstrappedState sc) !! "form_data" = None
    ∧ Demo.props_of w (Explore.bootstrappedState sc) !! "datasource_id"
      = Some (JNum 1).
Proof.
  eexists _, _. split; [by_run|].
  split_and!; by_run.
Qed.

(** Without the static default the control falls back on it. *)
Example default_run :
  ∃ w sc,
    Demo.explore (Demo.anchor "js-explore-view-container" "{'datasource_id':1}")
    = (w, Ok sc)
    ∧ c_value <$> Explore.controls sc !! "metric" = Some (JStr "sum").
Proof.
  eexists _, _. split; [by_run|]. by_run.
Qed.

(** Initial values for a control that the registry does not know. *)
Example unknown_control_run :
  (Demo.explore
     (Demo.anchor "js-explore-view-container" "{'form_data':{'colour':1}}")).2
  = Throw ControlResolutionError.
Proof. by_run. Qed.

(** A payload with a key [__proto__] in SQL Lab: the assignment goes to
    the accessor of [Object.prototype], and the state gets no property of
    that name. *)
Example proto_run :
  ∃ w sc,
    Demo.sqllab (Demo.anchor "app" "{'__proto__':{'x':1},'a':2}") = (w, Ok sc)
    ∧ Demo.props_of w (SqlLab.bootstrapData sc) !! "__proto__"
      = Some (JObj {[ "x" := JNum 1 ]})
    ∧ Demo.props_of w (SqlLab.state sc) !! "__proto__" = None
    ∧ Demo.props_of w (SqlLab.state sc) !! "a" = Some (JNum 2)
    ∧ Demo.props_of w (SqlLab.state sc) !! "tabHistory" = Some (JArr []).
Proof.
  eexists _, _. split; [by_run|].
  split_and!; by_run.
Qed.

(** The run on the payload that brings [dashboards] and [isStarred] of
    its own. *)
Lemma colliding_run :
  ∃ el s m w sc l o,
    find (λ el, bool_decide (el_id el = "js-explore-view-container"))
      Demo.colliding = Some el
    ∧ el_attrs el !! "data-bootstrap" = Some s
    ∧ Fragment.decode s = Some (JObj m)
    ∧ Demo.explore Demo.colliding = (w, Ok sc)
    ∧ Explore.bootstrappedState sc = VRef l
    ∧ w_heap w !! l = Some o
    ∧ m !! "dashboards" = Some (JArr [JNum 1])
    ∧ o_props o !! "dashboards" = Some (JArr []).
Proof.
  eexists _, _, _, _, _, _, _.
  split_and!; by_run.
Qed.

(** C1, as stated, fails on the explore view: [dashboards] is a key of
    the payload and of the fixed defaults of the literal, and the merged
    state holds the default, not the payload's value. *)
Lemma payload_over_defaults_counterexample :
  ¬ (∀ el s m w sc l o v,
       find (λ el, bool_decide (el_id el = "js-explore-view-container"))
         Demo.colliding = Some el →
       el_attrs el !! "data-bootstrap" = Some s →
       Fragment.decode s = Some (JObj m) →
       Demo.explore Demo.colliding = (w, Ok sc) →
       Explore.bootstrappedState sc = VRef l →
       w_heap w !! l = Some o →
       ("dashboards", JArr []) ∈ explore_fields 1000 (Explore.controls sc)
                                  (getFormDataFromControls (Explore.controls sc)) →
       m !! "dashboards" = Some v →
       o_props o !! "dashboards" = Some v).
Proof.
  intros Hclaim.
  destruct colliding_run as (el & s & m & w & sc & l & o & Hf & Ha & Hd & Hrun
                             & Hst & Ho & Hm & Hmerged).
  specialize (Hclaim el s m w sc l o (JArr [JNum 1]) Hf Ha Hd Hrun Hst Ho).
  rewrite Hmerged in Hclaim.
  assert (Some (JArr []) = Some (JArr [JNum 1])) as Heq; [|discriminate Heq].
  apply Hclaim; [|done]. unfold explore_fields. set_solver.
Qed.

(** C6, as stated, fails for an absent attribute: the extraction does not
    fail but yields [null], and what ends the run is the TypeError of the
    read of [form_data], not the error of a text that is not JSON. *)
Lemma absent_attribute_counterexample :
  ¬ (∀ el,
       find (λ el, bool_decide (el_id el = "js-explore-view-container"))
         Demo.bare = Some el →
       el_attrs el !! "data-bootstrap" = None →
       (∃ w e,
          (text ← getAttribute (Some el) "data-bootstrap";
           JSON_parse Fragment.decode text) page_load
          = (w, Throw e))
       ∨ (Demo.explore Demo.bare).2 = Throw SyntaxError).
Proof.
  intros Hclaim.
  destruct (Hclaim (Element "js-explore-view-container" ∅))
    as [(w & e & Hrun)|Hrun]; [reflexivity|reflexivity| |].
  - vm_compute in Hrun. discriminate Hrun.
  - vm_compute in Hrun. discriminate Hrun.
Qed.

(** ** The theorems at work on the concrete pages *)

(** The precedence on a page with both anchors. *)
Lemma merge_precedence_witness :
  (∃ el s m cs,
     find (λ el, bool_decide (el_id el = "js-explore-view-container"))
       Demo.both = Some el
     ∧ el_attrs el !! "data-bootstrap" = Some s
     ∧ Fragment.decode s = Some (JObj m)
     ∧ computeControls Demo.registry m (m !! "form_data") = Ok cs
     ∧ ∃ w' sc l o,
         explore_index Demo.both Fragment.decode Demo.clock Demo.registry page_load
         = (w', Ok sc)
         ∧ Explore.bootstrappedState sc = VRef l
         ∧ w_heap w' !! l = Some o
         ∧ (∀ k v,
              (k, v) ∈ explore_fields (Demo.clock (w_now_calls page_load)) cs
                         (getFormDataFromControls cs) →
              o_props o !! k = Some v)
         ∧ (∀ k, k ∉ explore_keys → k ≠ "form_data" →
              o_props o !! k = m !! k))
  ∧ (∃ el s m,
       find (λ el, bool_decide (el_id el = "app")) Demo.both = Some el
       ∧ el_attrs el !! "data-bootstrap" = Some s
       ∧ Fragment.decode s = Some (JObj m)
       ∧ ∃ w' sc l o,
           sqllab_index Demo.both Fragment.decode Demo.getInitialState page_load
           = (w', Ok sc)
           ∧ SqlLab.state sc = VRef l
           ∧ w_heap w' !! l = Some o
           ∧ (∀ k v, k ≠ "__proto__" → m !! k = Some v →
                o_props o !! k = Some v)
           ∧ (∀ k, k ≠ "__proto__" → m !! k = None →
                o_props o !! k
                = Demo.getInitialState (m !! "defaultDbId") !! k)).
Proof.
  pose proof (merge_precedence Demo.both Fragment.decode Demo.clock
                Demo.registry Demo.getInitialState page_load) as [Hex Hsql].
  split.
  - eexists _, _, _, _. split_and!; [by_run..|].
    eapply Hex; by_run.
  - eexists _, _, _. split_and!; [by_run..|].
    eapply Hsql; by_run.
Defined.

(** A payload with [controls] and [isStarred] of its own. *)
Lemma reserved_keys_shadowed_witness :
  ∃ el s m cs,
    find (λ el, bool_decide (el_id el = "js-explore-view-container"))
      Demo.colliding = Some el
    ∧ el_attrs el !! "data-bootstrap" = Some s
    ∧ Fragment.decode s = Some (JObj m)
    ∧ computeControls Demo.registry m (m !! "form_data") = Ok cs
    ∧ m !! "controls" = Some (JNum 7)
    ∧ m !! "isStarred" = Some (JBool true)
    ∧ ∃ w' sc l o,
        Demo.explore Demo.colliding = (w', Ok sc)
        ∧ Explore.bootstrappedState sc = VRef l
        ∧ w_heap w' !! l = Some o
        ∧ o_props o !! "controls" = Some (json_of_controls cs)
        ∧ o_props o !! "isStarred" = Some (JBool false).
Proof.
  eexists _, _, _, _. split_and!; [by_run..|].
  edestruct (reserved_keys_shadowed Demo.colliding Fragment.decode Demo.clock
               Demo.registry page_load)
    as (w' & sc & l & o & Hrun & Hst & Ho & Hcontrols & _ & _ & _ & _ & _ & _
        & _ & Hstarred & _); [by_run..|].
  by exists w', sc, l, o.
Defined.

(** The scenario payload, which has a [form_data]. *)
Lemma form_data_removed_witness :
  ∃ w' sc,
    Demo.explore Demo.scenario = (w', Ok sc)
    ∧ c_value <$> Explore.controls sc !! "metric" = Some (JStr "count")
    ∧ ∃ el s j payload l o,
        find (λ el, bool_decide (el_id el = "js-explore-view-container"))
          Demo.scenario = Some el
        ∧ el_attrs el !! "data-bootstrap" = Some s
        ∧ Fragment.decode s = Some j
        ∧ payload_object j = Some payload
        ∧ computeControls Demo.registry (own_enumerable payload)
            (o_props payload !! "form_data")
          = Ok (Explore.controls sc)
        ∧ Explore.bootstrappedState sc = VRef l
        ∧ w_heap w' !! l = Some o
        ∧ o_props o !! "form_data" = None
        ∧ own_enumerable o !! "form_data" = None
        ∧ o_props o !! "latestQueryFormData"
          = Some (JObj (getFormDataFromControls (Explore.controls sc)))
        ∧ (∀ k, k ∉ explore_keys → k ≠ "form_data" →
             o_props o !! k = o_props payload !! k).
Proof.
  eexists _, _. split; [by_run|].
  split; [by_run|].
  apply (form_data_removed Demo.scenario Fragment.decode Demo.clock
           Demo.registry page_load).
  by_run.
Defined.

(** The one reading of the clock in the scenario. *)
Lemma now_called_once_witness :
  ∃ w' sc,
    Demo.explore Demo.scenario = (w', Ok sc)
    ∧ count is_now (w_trace w') = count is_now (w_trace page_load) + 1
    ∧ w_now_calls w' = S (w_now_calls page_load)
    ∧ ∃ l o,
        Explore.bootstrappedState sc = VRef l
        ∧ w_heap w' !! l = Some o
        ∧ o_props o !! "chartUpdateStartTime" = Some (JNum 1000).
Proof.
  eexists _, _. split; [by_run|].
  apply (now_called_once Demo.scenario Fragment.decode Demo.clock
           Demo.registry page_load).
  by_run.
Defined.

(** Each entry point on the page of the other. *)
Lemma missing_anchor_aborts_witness :
  find (λ el, bool_decide (el_id el = anchor_id ExploreView)) Demo.sqllab_page
  = None
  ∧ run_entry Demo.sqllab_page Fragment.decode Demo.clock Demo.registry
      Demo.getInitialState ExploreView page_load
    = (World ∅ 0
         [Call_initJQueryAjaxCSRF;
          Call_getElementById "js-explore-view-container"],
       Throw (TypeError "getAttribute"))
  ∧ find (λ el, bool_decide (el_id el = anchor_id SqlLabView)) Demo.scenario
    = None
  ∧ run_entry Demo.scenario Fragment.decode Demo.clock Demo.registry
      Demo.getInitialState SqlLabView page_load
    = (World ∅ 0 [Call_initJQueryAjaxCSRF; Call_getElementById "app"],
       Throw (TypeError "getAttribute")).
Proof.
  split_and!.
  - reflexivity.
  - apply (missing_anchor_aborts Demo.sqllab_page Fragment.decode Demo.clock
             Demo.registry Demo.getInitialState ExploreView page_load).
    reflexivity.
  - reflexivity.
  - apply (missing_anchor_aborts Demo.scenario Fragment.decode Demo.clock
             Demo.registry Demo.getInitialState SqlLabView page_load).
    reflexivity.
Defined.

(** A text that breaks off, and an anchor without the attribute. *)
Lemma malformed_payload_aborts_witness :
  (∃ el s,
     find (λ el, bool_decide (el_id el = anchor_id ExploreView)) Demo.truncated
     = Some el
     ∧ el_attrs el !! "data-bootstrap" = Some s
     ∧ Fragment.decode s = None
     ∧ ∃ w',
         run_entry Demo.truncated Fragment.decode Demo.clock Demo.registry
           Demo.getInitialState ExploreView page_load
         = (w', Throw SyntaxError)
         ∧ w_trace w'
           = w_trace page_load
             ++ [Call_initJQueryAjaxCSRF;
                 Call_getElementById (anchor_id ExploreView);
                 Call_getAttribute "data-bootstrap"; Call_JSON_parse])
  ∧ (∃ el,
       find (λ el, bool_decide (el_id el = anchor_id ExploreView)) Demo.bare
       = Some el
       ∧ el_attrs el !! "data-bootstrap" = None
       ∧ ∃ w',
           run_entry Demo.bare Fragment.decode Demo.clock Demo.registry
             Demo.getInitialState ExploreView page_load
           = (w', Throw (TypeError (first_read ExploreView)))
           ∧ w_trace w'
             = w_trace page_load
               ++ [Call_initJQueryAjaxCSRF;
                   Call_getElementById (anchor_id ExploreView);
                   Call_getAttribute "data-bootstrap"; Call_JSON_parse]).
Proof.
  split.
  - eexists _, _. split_and!; [by_run..|].
    eapply (malformed_payload_aborts Demo.truncated Fragment.decode Demo.clock
              Demo.registry Demo.getInitialState ExploreView page_load);
      by_run.
  - eexists. split_and!; [by_run..|].
    eapply (malformed_payload_aborts Demo.bare Fragment.decode Demo.clock
              Demo.registry Demo.getInitialState ExploreView page_load);
      by_run.
Defined.

(** State and payload on a page with both anchors. *)
Lemma merge_target_aliasing_witness :
  (∃ el s m cs,
     find (λ el, bool_decide (el_id el = "js-explore-view-container"))
       Demo.both = Some el
     ∧ el_attrs el !! "data-bootstrap" = Some s
     ∧ Fragment.decode s = Some (JObj m)
     ∧ computeControls Demo.registry m (m !! "form_data") = Ok cs
     ∧ m !! "dashboards" = Some (JArr [JNum 1])
     ∧ m !! "slice" = Some JNull
     ∧ m !! "chartStatus" = None
     ∧ ∃ w' sc l o,
         explore_index Demo.both Fragment.decode Demo.clock Demo.registry page_load
         = (w', Ok sc)
         ∧ Explore.bootstrapData sc = VRef l
         ∧ Explore.bootstrappedState sc = VRef l
         ∧ w_heap w' !! l = Some o
         ∧ o_props o !! "chartStatus" = Some JNull
         ∧ o_props o !! "chartUpdateEndTime" = Some JNull
         ∧ o_props o !! "chartUpdateStartTime" = Some (JNum 1000)
         ∧ o_props o !! "dashboards" = Some (JArr [])
         ∧ o_props o !! "controls" = Some (json_of_controls cs)
         ∧ o_props o !! "latestQueryFormData"
           = Some (JObj (getFormDataFromControls cs))
         ∧ o_props o !! "filterColumnOpts" = Some (JArr [])
         ∧ o_props o !! "isDatasourceMetaLoading" = Some (JBool false)
         ∧ o_props o !! "isStarred" = Some (JBool false)
         ∧ o_props o !! "queryResponse" = Some JNull
         ∧ o_props o !! "triggerQuery" = Some (JBool true)
         ∧ o_props o !! "triggerRender" = Some (JBool false)
         ∧ o_props o !! "slice" = Some JNull)
  ∧ (∃ el s m,
       find (λ el, bool_decide (el_id el = "app")) Demo.both = Some el
       ∧ el_attrs el !! "data-bootstrap" = Some s
       ∧ Fragment.decode s = Some (JObj m)
       ∧ ∃ w' sc l0 l,
           sqllab_index Demo.both Fragment.decode Demo.getInitialState page_load
           = (w', Ok sc)
           ∧ SqlLab.bootstrapData sc = VRef l0
           ∧ SqlLab.state sc = VRef l
           ∧ l ≠ l0
           ∧ w_heap w' !! l0 = Some (plain m)).
Proof.
  pose proof (merge_target_aliasing Demo.both Fragment.decode Demo.clock
                Demo.registry Demo.getInitialState page_load) as [Hex Hsql].
  split.
  - eexists _, _, _, _. split_and!; [by_run..|].
    edestruct Hex
      as (w' & sc & l & o & Hrun & Hbd & Hst & _ & Ho & H1 & H2 & H3 & H4 & H5
          & H6 & H7 & H8 & H9 & H10 & H11 & H12 & _ & Hkept);
      [by_run..|].
    exists w', sc, l, o. split_and!; try done.
    rewrite Hkept; [by_run| |done].
    apply (bool_decide_unpack ("slice" ∉ explore_keys)). reflexivity.
  - eexists _, _, _. split_and!; [by_run..|].
    edestruct Hsql as (w' & sc & l0 & l & Hrun & Hbd & Hst & Hne & _ & Hkept);
      [by_run..|].
    by exists w', sc, l0, l.
Defined.

(** *** The key [__proto__] *)

Lemma js_set_accessor_ne o k v :
  k ≠ "__proto__" → o_proto_accessor (js_set o k v) = o_proto_accessor o.
Proof. intros Hk. unfold js_set. by rewrite decide_False. Qed.

Lemma js_set_proto_accessor o v :
  o_props o !! "__proto__" = None → o_proto_accessor o = true →
  o_props (js_set o "__proto__" v) = o_props o.
Proof. intros Hnone Hacc. unfold js_set. simpl. by rewrite Hnone, Hacc. Qed.

Lemma assign_entries_cons o kv es :
  assign_entries o (kv :: es) = assign_entries (js_set o kv.1 kv.2) es.
Proof. reflexivity. Qed.

(** A target without own [__proto__] that still reaches the accessor
    gets no own [__proto__] from a source whose keys are distinct. *)
Lemma assign_entries_no_own_proto es : ∀ o,
  NoDup es.*1 →
  o_props o !! "__proto__" = None → o_proto_accessor o = true →
  o_props (assign_entries o es) !! "__proto__" = None.
Proof.
  induction es as [|[k v] es IH]; intros o Hnodup Hnone Hacc; [done|].
  rewrite assign_entries_cons. simpl in *.
  apply NoDup_cons in Hnodup as [Hk Hnodup].
  destruct (decide (k = "__proto__")) as [->|Hne].
  - rewrite assign_entries_lookup_absent by done.
    by rewrite js_set_proto_accessor.
  - apply IH; [done| |].
    + by rewrite js_set_lookup_ne.
    + by rewrite js_set_accessor_ne.
Qed.

Lemma assign_entries_accessor_absent es : ∀ o,
  "__proto__" ∉ es.*1 →
  o_proto_accessor (assign_entries o es) = o_proto_accessor o.
Proof.
  induction es as [|[k v] es IH]; intros o Hk; [done|].
  rewrite assign_entries_cons. simpl in *.
  apply not_elem_of_cons in Hk as [Hne Hk].
  rewrite IH by done. by apply js_set_accessor_ne.
Qed.

Lemma sqllab_merge_no_own_proto (defaults payload : gmap string json) :
  defaults !! "__proto__" = None →
  o_props (assign_entries (assign_entries (plain ∅) (map_to_list defaults))
             (map_to_list payload)) !! "__proto__" = None.
Proof.
  intros Hd.
  assert ("__proto__" ∉ (map_to_list defaults).*1) as Hnotin.
  { intros Hin. apply list_elem_of_fmap in Hin as ([k v] & Heq & Hin).
    apply elem_of_map_to_list in Hin. simpl in Heq. congruence. }
  apply assign_entries_no_own_proto.
  - apply NoDup_fst_map_to_list.
  - by rewrite assign_entries_lookup_absent.
  - by rewrite assign_entries_accessor_absent.
Qed.

Lemma fresh_insert_ne (h : gmap nat object) l o :
  fresh (dom (<[l := o]> h)) ≠ l.
Proof.
  intros Heq. apply (is_fresh (dom (<[l := o]> h))). rewrite Heq. set_solver.
Qed.

(** ** More on the runs of the entry points *)

Section More.
Context (document : list element) (JSON_decode : string → option json)
  (clock : nat → Z) (registry : gmap string ControlTemplate)
  (getInitialState : option json → gmap string json).

Local Abbreviation explore := (explore_index document JSON_decode clock registry).
Local Abbreviation sqllab := (sqllab_index document JSON_decode getInitialState).
Local Abbreviation anchor id :=
  (find (λ el, bool_decide (el_id el = id)) document).
Local Abbreviation run_view :=
  (run_entry document JSON_decode clock registry getInitialState).

(** The run of SQL Lab on any decoded value other than [null]. *)
Lemma sqllab_index_value w el s j o :
  anchor "app" = Some el →
  el_attrs el !! "data-bootstrap" = Some s →
  JSON_decode s = Some j →
  payload_object j = Some o →
  let h := parsed_heap j (w_heap w) in
  let l := fresh (dom h) in
  sqllab w
  = (World
       (<[l := assign_entries
                 (assign_entries (plain ∅)
                    (map_to_list (getInitialState (o_props o !! "defaultDbId"))))
                 (map_to_list (own_enumerable o))]> h)
       (w_now_calls w)
       (w_trace w ++ sqllab_events l),
     Ok (SqlLab.Scope (Some el) (value_at j (fresh (dom (w_heap w)))) (VRef l))).
Proof.
  intros Hf Ha Hd Ho h l. run. rewrite Hf. run. rewrite Ha. run.
  rewrite Hd. subst h l.
  destruct j; simplify_eq/=; run.
  1-3: unfold own_enumerable, sqllab_events; simpl;
       rewrite ?(left_id_L ∅ (∪)), ?lookup_empty, <-?app_assoc; done.
  all: rewrite !(lookup_insert_ne _ (fresh (dom (<[_ := _]> _))) (fresh (dom (w_heap w))))
         by apply fresh_insert_ne.
  all: rewrite !lookup_insert_eq; run.
  all: unfold sqllab_events; simpl; by rewrite <-?app_assoc.
Qed.

(** X3.  On every decoded value other than [null], be it a record, an
    array, a number, a boolean or a string of characters below 128, the
    merge of SQL Lab raises no error and the run reaches [createStore]
    with a new object as the state.  Away from [__proto__] this state
    holds the own enumerable properties of the value (the elements of an
    array and the characters of a string under their indices) over the
    defaults that [getInitialState] gives for its [defaultDbId]; the
    object of the payload, if it is one, is another object and is left as
    decoded. *)
Theorem sqllab_accepts_any_value w el s j o :
  anchor "app" = Some el →
  el_attrs el !! "data-bootstrap" = Some s →
  JSON_decode s = Some j →
  payload_object j = Some o →
  indexed_by_chars j = true →
  ∃ l merged,
    Call_createStore "sqlLabReducer" (VRef l) ∈ w_trace (sqllab w).1
    ∧ w_heap w !! l = None
    ∧ w_heap (sqllab w).1 !! l = Some merged
    ∧ (∀ k, k ≠ "__proto__" →
         o_props merged !! k
         = (own_enumerable o ∪ getInitialState (o_props o !! "defaultDbId")) !! k)
    ∧ (∀ l0, value_at j (fresh (dom (w_heap w))) = VRef l0 →
         l0 ≠ l ∧ w_heap (sqllab w).1 !! l0 = Some o).
Proof.
  intros Hf Ha Hd Ho _.
  rewrite (sqllab_index_value w el s j o) by done.
  exists (fresh (dom (parsed_heap j (w_heap w)))). eexists. simpl. split_and!.
  - unfold sqllab_events. set_solver.
  - apply not_elem_of_dom. intros Hin.
    apply (is_fresh (dom (parsed_heap j (w_heap w)))).
    destruct j; simpl; set_solver.
  - apply lookup_insert_eq.
  - intros k Hk. by apply sqllab_merge_lookup.
  - intros l0 Hl0.
    destruct j; simplify_eq/=.
    all: split; [symmetry; apply fresh_insert_ne|].
    all: rewrite lookup_insert_ne by apply fresh_insert_ne.
    all: apply lookup_insert_eq.
Qed.

(** X4.  When the defaults have no key [__proto__], the SQL Lab state
    has no own property [__proto__] whatever the payload holds: the
    assignment of that key into the new target goes to the accessor of
    [Object.prototype]. *)
Theorem sqllab_state_has_no_own_proto w el s j o :
  anchor "app" = Some el →
  el_attrs el !! "data-bootstrap" = Some s →
  JSON_decode s = Some j →
  payload_object j = Some o →
  getInitialState (o_props o !! "defaultDbId") !! "__proto__" = None →
  ∃ w' sc l merged,
    sqllab w = (w', Ok sc)
    ∧ SqlLab.state sc = VRef l
    ∧ w_heap w' !! l = Some merged
    ∧ o_props merged !! "__proto__" = None.
Proof.
  intros Hf Ha Hd Ho Hdef.
  eexists _, _, _, _.
  split; [by apply (sqllab_index_value w el s j o)|].
  simpl. split_and!; [done|apply lookup_insert_eq|].
  by apply sqllab_merge_no_own_proto.
Qed.

(** X2.  The JSON text [null] is decoded without an error and then ends
    either entry point like an absent attribute does: with the TypeError
    of its first read of a property of the payload, before the clock is
    read. *)
Theorem json_null_aborts e w el s :
  anchor (anchor_id e) = Some el →
  el_attrs el !! "data-bootstrap" = Some s →
  JSON_decode s = Some JNull →
  ∃ w',
    run_view e w = (w', Throw (TypeError (first_read e)))
    ∧ w_trace w'
      = w_trace w
        ++ [Call_initJQueryAjaxCSRF; Call_getElementById (anchor_id e);
            Call_getAttribute "data-bootstrap"; Call_JSON_parse]
    ∧ w_now_calls w' = w_now_calls w.
Proof.
  intros Hf Ha Hd.
  destruct e; unfold run_entry; simpl in Hf; run; rewrite Hf; run;
    rewrite Ha; run; rewrite Hd; run.
  all: eexists; split_and!; [reflexivity| |done]; simpl; by rewrite <-!app_assoc.
Qed.

(** The calls of a run that completes end with the hand-over to the
    store and the mount. *)
Lemma run_entry_mounts e w :
  match run_view e w with
  | (w', Ok st) =>
      ∃ before,
        w_trace w' = w_trace w ++ before ++ mount_events e st
        ∧ count is_store_or_render before = 0
  | (w', Throw _) => True
  end.
Proof.
  destruct e; unfold run_entry; run.
  all: destruct (find _ document) as [el|]; run.
  all: try destruct (el_attrs el !! "data-bootstrap") as [s|]; run.
  all: try destruct (JSON_decode s) as [j|]; run.
  all: try destruct j; run.
  all: try destruct (computeControls _ _ _) as [cs|]; run.
  all: rewrite <-?app_assoc; simpl.
  all: first [ done
             | by eexists [_; _; _; _; _]
             | by eexists [_; _; _; _] ].
Qed.

(** X1.  A run of either entry point that completes has created the
    store once, with the reducer of the entry point and on the very
    state that the merge returned, and has rendered once, after that, as
    its last call (in SQL Lab the navbar highlight is in between); there
    is no other creation or render in the run. *)
Theorem store_then_mount e w w' st :
  run_view e w = (w', Ok st) →
  ∃ before,
    w_trace w' = w_trace w ++ before ++ mount_events e st
    ∧ count is_store_or_render before = 0
    ∧ count is_store_or_render (w_trace w')
      = count is_store_or_render (w_trace w) + 2.
Proof.
  intros Hrun. pose proof (run_entry_mounts e w) as Hm.
  rewrite Hrun in Hm. destruct Hm as (before & Htrace & Hbefore).
  exists before. split_and!; [done..|].
  rewrite Htrace. unfold count in *.
  rewrite !filter_app, !length_app, Hbefore. by destruct e.
Qed.

End More.

(** ** The build script under [set -e] *)

Section Shell.
Import Build.
Context {machine : Type} (exec : command → machine → machine * nat)
  (readable : string → machine → bool).

Local Abbreviation sh := (errexit machine exec readable).

Lemma run_line_cases ln m m' ran n :
  run_line machine exec readable ln m = (m', ran, n) →
  (ran = [(l_command ln, n)] ∧ exec (l_command ln) m = (m', n))
  ∨ (ran = [] ∧ n = 1 ∧ m' = m
     ∧ ∃ file, l_stdin ln = Some file ∧ readable file m = false).
Proof.
  unfold run_line. intros H.
  destruct (l_stdin ln) as [file|].
  - destruct (readable file m) eqn:Hr.
    + destruct (exec (l_command ln) m) as [m1 n1]. simplify_eq. by left.
    + simplify_eq. right. eauto 10.
  - destruct (exec (l_command ln) m) as [m1 n1]. simplify_eq. by left.
Qed.

(** How a script under [set -e] ends: it ran to its end and every command
    exited with 0; or the command of some line exited with the status of
    the script, after the lines before it succeeded; or the redirection
    of some line failed, after the lines before it succeeded. *)
Lemma errexit_outcome script : ∀ m m' log status,
  sh script m = (m', log, status) →
  (status = 0 ∧ log = succeeded (commands script))
  ∨ (∃ k c mk,
       status ≠ 0
       ∧ commands script !! k = Some c
       ∧ sh (take k script) m = (mk, succeeded (take k (commands script)), 0)
       ∧ exec c mk = (m', status)
       ∧ log = succeeded (take k (commands script)) ++ [(c, status)])
  ∨ (∃ k ln file,
       status = 1
       ∧ script !! k = Some ln
       ∧ l_stdin ln = Some file
       ∧ sh (take k script) m = (m', succeeded (take k (commands script)), 0)
       ∧ readable file m' = false
       ∧ log = succeeded (take k (commands script))).
Proof.
  induction script as [|ln rest IH]; intros m m' log status Hrun.
  - simpl in Hrun. simplify_eq. by left.
  - simpl in Hrun.
    destruct (run_line _ _ _ ln m) as [[m1 ran] n1] eqn:Hline.
    destruct (run_line_cases _ _ _ _ _ Hline)
      as [[-> Hexec]|(-> & -> & -> & file & Hfile & Hread)].
    + destruct n1 as [|n1].
      * destruct (sh rest m1) as [[m2 log2] st2] eqn:Hrest.
        simplify_eq.
        destruct (IH _ _ _ _ Hrest)
          as [[-> ->]|[(k & c & mk & Hst & Hc & Hpre & Hex & ->)
                      |(k & ln' & file & -> & Hln & Hfile & Hpre & Hread & ->)]].
        -- by left.
        -- right; left. exists (S k), c, mk. split_and!; try done.
           simpl. by rewrite Hline, Hpre.
        -- right; right. exists (S k), ln', file. split_and!; try done.
           simpl. by rewrite Hline, Hpre.
      * simplify_eq. right; left. exists 0, (l_command ln), m. done.
    + simplify_eq. right; right. exists 0, ln, file. done.
Qed.

Lemma succeeded_lookup cs i :
  succeeded cs !! i = (λ c, (c, 0)) <$> cs !! i.
Proof. unfold succeeded. apply list_lookup_fmap. Qed.

(** The log follows the script, and a command in it was reached only
    through commands that exited with 0. *)
Lemma errexit_guard script m m' log status j c n :
  sh script m = (m', log, status) →
  log !! j = Some (c, n) →
  commands script !! j = Some c
  ∧ ∀ i c', i < j → commands script !! i = Some c' → log !! i = Some (c', 0).
Proof.
  intros Hrun Hj.
  destruct (errexit_outcome _ _ _ _ _ Hrun)
    as [[-> ->]|[(k & c0 & mk & Hst & Hc & _ & _ & ->)
                |(k & ln' & file & -> & Hln & _ & _ & _ & ->)]].
  - rewrite succeeded_lookup in Hj.
    destruct (commands script !! j) as [cj|] eqn:Hcj; simplify_eq/=.
    split; [done|]. intros i c' _ Hi. by rewrite succeeded_lookup, Hi.
  - assert (length (succeeded (take k (commands script))) = k) as Hlen.
    { unfold succeeded. rewrite length_fmap, length_take.
      apply lookup_lt_Some in Hc. lia. }
    destruct (decide (j < k)) as [Hlt|Hge].
    + rewrite lookup_app_l in Hj by lia.
      rewrite succeeded_lookup, lookup_take_lt in Hj by done.
      destruct (commands script !! j) as [cj|] eqn:Hcj; simplify_eq/=.
      split; [done|]. intros i c' Hi Hci.
      rewrite lookup_app_l by lia.
      by rewrite succeeded_lookup, lookup_take_lt, Hci by lia.
    + rewrite lookup_app_r in Hj by lia. rewrite Hlen in Hj.
      destruct (j - k) as [|d] eqn:Hd; simplify_eq/=.
      assert (j = k) as -> by lia.
      split; [done|]. intros i c' Hi Hci.
      rewrite lookup_app_l by lia.
      by rewrite succeeded_lookup, lookup_take_lt, Hci by lia.
  - assert (j < k) as Hlt.
    { apply lookup_lt_Some in Hj. unfold succeeded in Hj.
      rewrite length_fmap, length_take in Hj. lia. }
    rewrite succeeded_lookup, lookup_take_lt in Hj by done.
    destruct (commands script !! j) as [cj|] eqn:Hcj; simplify_eq/=.
    split; [done|]. intros i c' Hi Hci.
    by rewrite succeeded_lookup, lookup_take_lt, Hci by lia.
Qed.

(** X5.  The build script stops at its first failure.  Either all eight
    commands ran and exited with 0, and so does the script; or one
    command exited with another status, which is the status of the
    script, after the commands before it exited with 0 and with nothing
    run after it; or the coverage file could not be opened after seven
    commands with status 0, the reporter did not run and the status
    is 1. *)
Theorem js_build_stops_at_first_failure m m' log status :
  sh js_build m = (m', log, status) →
  (status = 0 ∧ log = succeeded (commands js_build))
  ∨ (∃ k c mk,
       status ≠ 0
       ∧ commands js_build !! k = Some c
       ∧ sh (take k js_build) m = (mk, succeeded (take k (commands js_build)), 0)
       ∧ exec c mk = (m', status)
       ∧ log = succeeded (take k (commands js_build)) ++ [(c, status)])
  ∨ (status = 1
     ∧ sh (take 7 js_build) m = (m', succeeded (take 7 (commands js_build)), 0)
     ∧ readable "./coverage/lcov.info" m' = false
     ∧ log = succeeded (take 7 (commands js_build))).
Proof.
  intros Hrun.
  destruct (errexit_outcome _ _ _ _ _ Hrun)
    as [?|[?|(k & ln & file & -> & Hln & Hfile & Hpre & Hread & ->)]];
    [by left|by right; left|right; right].
  do 8 (destruct k as [|k]; simpl in Hln; simplify_eq/=; try done).
Qed.
(** X6.  The commands of the build script run in the order of the
    script, and a command runs only after every command before it in the
    script ran and exited with 0: no build without install, lint and
    tests passing, no coverage report without the build. *)
Theorem js_build_runs_in_order m m' log status j c n :
  sh js_build m = (m', log, status) →
  log !! j = Some (c, n) →
  commands js_build !! j = Some c
  ∧ ∀ i c', i < j → commands js_build !! i = Some c' → log !! i = Some (c', 0).
Proof. apply errexit_guard. Qed.

End Shell.

(** ** The further theorems at work *)

(** An array as the payload of SQL Lab: its elements land in the state
    under their indices, over the defaults. *)
Example array_run :
  ∃ w sc,
    Demo.sqllab (Demo.anchor "app" "[7,'x']") = (w, Ok sc)
    ∧ Demo.props_of w (SqlLab.state sc) !! "0" = Some (JNum 7)
    ∧ Demo.props_of w (SqlLab.state sc) !! "1" = Some (JStr "x")
    ∧ Demo.props_of w (SqlLab.state sc) !! "defaultDbId" = Some JNull
    ∧ Demo.props_of w (SqlLab.state sc) !! "tabHistory" = Some (JArr []).
Proof.
  eexists _, _. split; [by_run|].
  split_and!; by_run.
Qed.

(** The text [null] under the anchor of the explore view. *)
Lemma json_null_aborts_witness :
  ∃ el s,
    find (λ el, bool_decide (el_id el = anchor_id ExploreView))
      (Demo.anchor "js-explore-view-container" "null") = Some el
    ∧ el_attrs el !! "data-bootstrap" = Some s
    ∧ Fragment.decode s = Some JNull
    ∧ ∃ w',
        run_entry (Demo.anchor "js-explore-view-container" "null")
          Fragment.decode Demo.clock Demo.registry Demo.getInitialState
          ExploreView page_load
        = (w', Throw (TypeError (first_read ExploreView)))
        ∧ w_trace w'
          = w_trace page_load
            ++ [Call_initJQueryAjaxCSRF;
                Call_getElementById (anchor_id ExploreView);
                Call_getAttribute "data-bootstrap"; Call_JSON_parse]
        ∧ w_now_calls w' = w_now_calls page_load.
Proof.
  eexists _, _. split_and!; [by_run..|].
  eapply (json_null_aborts (Demo.anchor "js-explore-view-container" "null")
            Fragment.decode Demo.clock Demo.registry Demo.getInitialState
            ExploreView page_load);
    by_run.
Defined.

(** An array under the anchor of SQL Lab. *)
Lemma sqllab_accepts_any_value_witness :
  ∃ el s j o,
    find (λ el, bool_decide (el_id el = "app")) (Demo.anchor "app" "[7,'x']")
    = Some el
    ∧ el_attrs el !! "data-bootstrap" = Some s
    ∧ Fragment.decode s = Some j
    ∧ payload_object j = Some o
    ∧ indexed_by_chars j = true
    ∧ own_enumerable o !! "0" = Some (JNum 7)
    ∧ ∃ l merged,
        Call_createStore "sqlLabReducer" (VRef l)
        ∈ w_trace (sqllab_index (Demo.anchor "app" "[7,'x']") Fragment.decode
                     Demo.getInitialState page_load).1
        ∧ w_heap page_load !! l = None
        ∧ w_heap (sqllab_index (Demo.anchor "app" "[7,'x']") Fragment.decode
                    Demo.getInitialState page_load).1 !! l
          = Some merged
        ∧ (∀ k, k ≠ "__proto__" →
             o_props merged !! k
             = (own_enumerable o
                ∪ Demo.getInitialState (o_props o !! "defaultDbId")) !! k)
        ∧ (∀ l0, value_at j (fresh (dom (w_heap page_load))) = VRef l0 →
             l0 ≠ l
             ∧ w_heap (sqllab_index (Demo.anchor "app" "[7,'x']")
                         Fragment.decode Demo.getInitialState page_load).1
               !! l0
               = Some o).
Proof.
  eexists _, _, _, _. split_and!; [by_run..|].
  eapply (sqllab_accepts_any_value (Demo.anchor "app" "[7,'x']")
            Fragment.decode Demo.getInitialState page_load);
    by_run.
Defined.

(** The store and the mount of the scenario. *)
Lemma store_then_mount_witness :
  ∃ w' st,
    run_entry Demo.scenario Fragment.decode Demo.clock Demo.registry
      Demo.getInitialState ExploreView page_load
    = (w', Ok st)
    ∧ ∃ before,
        w_trace w' = w_trace page_load ++ before ++ mount_events ExploreView st
        ∧ count is_store_or_render before = 0
        ∧ count is_store_or_render (w_trace w')
          = count is_store_or_render (w_trace page_load) + 2.
Proof.
  eexists _, _. split; [by_run|].
  apply (store_then_mount Demo.scenario Fragment.decode Demo.clock
           Demo.registry Demo.getInitialState ExploreView page_load).
  by_run.
Defined.

(** A payload with a key [__proto__] under the anchor of SQL Lab. *)
Lemma sqllab_state_has_no_own_proto_witness :
  ∃ el s j o,
    find (λ el, bool_decide (el_id el = "app"))
      (Demo.anchor "app" "{'__proto__':{'x':1},'a':2}") = Some el
    ∧ el_attrs el !! "data-bootstrap" = Some s
    ∧ Fragment.decode s = Some j
    ∧ payload_object j = Some o
    ∧ o_props o !! "__proto__" = Some (JObj {[ "x" := JNum 1 ]})
    ∧ Demo.getInitialState (o_props o !! "defaultDbId") !! "__proto__" = None
    ∧ ∃ w' sc l merged,
        sqllab_index (Demo.anchor "app" "{'__proto__':{'x':1},'a':2}")
          Fragment.decode Demo.getInitialState page_load
        = (w', Ok sc)
        ∧ SqlLab.state sc = VRef l
        ∧ w_heap w' !! l = Some merged
        ∧ o_props merged !! "__proto__" = None.
Proof.
  eexists _, _, _, _. split_and!; [by_run..|].
  eapply (sqllab_state_has_no_own_proto
            (Demo.anchor "app" "{'__proto__':{'x':1},'a':2}")
            Fragment.decode Demo.getInitialState page_load);
    by_run.
Defined.

(** Trial runs of the build script: all commands pass; the lint fails;
    the coverage file cannot be opened. *)
Example build_trials :
  Build.errexit (list Build.command) (Build.trial_exec None)
    Build.trial_readable Build.js_build []
  = (Build.commands Build.js_build,
     Build.succeeded (Build.commands Build.js_build), 0)
  ∧ Build.errexit (list Build.command)
      (Build.trial_exec (Some Build.npm_run_lint))
      Build.trial_readable Build.js_build []
    = ([Build.cd_dirname; Build.npm_version; Build.npm_install;
        Build.npm_run_lint],
       [(Build.cd_dirname, 0); (Build.npm_version, 0); (Build.npm_install, 0);
        (Build.npm_run_lint, 2)],
       2)
  ∧ Build.errexit (list Build.command) (Build.trial_exec None)
      (λ _ _, false) Build.js_build []
    = (take 7 (Build.commands Build.js_build),
       Build.succeeded (take 7 (Build.commands Build.js_build)), 1).
Proof. split_and!; by_run. Qed.

(** The build with a failing lint. *)
Lemma js_build_stops_at_first_failure_witness :
  ∃ m' log,
    Build.errexit (list Build.command)
      (Build.trial_exec (Some Build.npm_run_lint))
      Build.trial_readable Build.js_build []
    = (m', log, 2)
    ∧ ((2 = 0 ∧ log = Build.succeeded (Build.commands Build.js_build))
       ∨ (∃ k c mk,
            2 ≠ 0
            ∧ Build.commands Build.js_build !! k = Some c
            ∧ Build.errexit (list Build.command)
                (Build.trial_exec (Some Build.npm_run_lint))
                Build.trial_readable (take k Build.js_build) []
              = (mk, Build.succeeded (take k (Build.commands Build.js_build)), 0)
            ∧ Build.trial_exec (Some Build.npm_run_lint) c mk = (m', 2)
            ∧ log
              = Build.succeeded (take k (Build.commands Build.js_build))
                ++ [(c, 2)])
       ∨ (2 = 1
          ∧ Build.errexit (list Build.command)
              (Build.trial_exec (Some Build.npm_run_lint))
              Build.trial_readable (take 7 Build.js_build) []
            = (m', Build.succeeded (take 7 (Build.commands Build.js_build)), 0)
          ∧ Build.trial_readable "./coverage/lcov.info" m' = false
          ∧ log = Build.succeeded (take 7 (Build.commands Build.js_build)))).
Proof.
  eexists _, _. split; [by_run|].
  apply (js_build_stops_at_first_failure
           (Build.trial_exec (Some Build.npm_run_lint)) Build.trial_readable).
  by_run.
Defined.

(** The failing lint is the fourth command, after three that passed. *)
Lemma js_build_runs_in_order_witness :
  ∃ m' log,
    Build.errexit (list Build.command)
      (Build.trial_exec (Some Build.npm_run_lint))
      Build.trial_readable Build.js_build []
    = (m', log, 2)
    ∧ log !! 3 = Some (Build.npm_run_lint, 2)
    ∧ Build.commands Build.js_build !! 3 = Some Build.npm_run_lint
    ∧ ∀ i c',
        i < 3 → Build.commands Build.js_build !! i = Some c' →
        log !! i = Some (c', 0).
Proof.
  eexists _, _. split; [by_run|].
  split; [by_run|].
  eapply (js_build_runs_in_order
            (Build.trial_exec (Some Build.npm_run_lint)) Build.trial_readable
            [] _ _ 2 3 Build.npm_run_lint 2);
    by_run.
Defined.
